(** * PIPE_CONTROL flushing and barriers of the iris driver

    A shallow embedding of [src/gallium/drivers/iris/iris_pipe_control.c]
    and the properties of the command stream it produces.

    The file is organised as follows:
    - machine integers and the constants of the headers;
    - the driver state (batches, screen, emitted PIPE_CONTROLs) and a small
      state monad in which the C functions are written;
    - the five functions of the source file;
    - the vocabulary in which the properties are stated;
    - general lemmas on the command stream;
    - the properties of the flush helpers and of the two barriers;
    - further properties of the emitted commands: hazards, write targets,
      scope of the memory barrier, order, size and range of the streams. *)

From Stdlib Require Import ZArith Lia.
From stdpp Require Import base tactics decidable numbers sorting list.

Local Open Scope Z_scope.

(** ** Machine integers *)

(** Conversion of an integer to [uint32_t]: reduction modulo [2^32]. *)
Definition uint32_t (z : Z) : Z := z mod 2 ^ 32.

(** A C scalar used as a condition is true when it is not zero. *)
Definition truthy (z : Z) : bool := negb (z =? 0).

(** ** Constants of the headers

    The file takes its constants from three headers: [iris_context.h] (the
    [PIPE_CONTROL_*] flags and the two masks [PIPE_CONTROL_CACHE_FLUSH_BITS]
    and [PIPE_CONTROL_CACHE_INVALIDATE_BITS]), [p_defines.h] (the
    [PIPE_BARRIER_*] scope bits) and [iris_batch.h] (the batch names and
    [IRIS_BATCH_COUNT]).  The values are parameters here: a property holds
    for all of them, or for all that satisfy the assumption it states.  The
    flags and scope bits are values of 32-bit unsigned words, the batch
    names are indices in [ice->batches]. *)
Class iris_defs := {
  PIPE_CONTROL_CS_STALL : Z;
  PIPE_CONTROL_WRITE_IMMEDIATE : Z;
  PIPE_CONTROL_WRITE_DEPTH_COUNT : Z;
  PIPE_CONTROL_WRITE_TIMESTAMP : Z;
  PIPE_CONTROL_RENDER_TARGET_FLUSH : Z;
  PIPE_CONTROL_DEPTH_CACHE_FLUSH : Z;
  PIPE_CONTROL_DATA_CACHE_FLUSH : Z;
  PIPE_CONTROL_TEXTURE_CACHE_INVALIDATE : Z;
  PIPE_CONTROL_CONST_CACHE_INVALIDATE : Z;
  PIPE_CONTROL_VF_CACHE_INVALIDATE : Z;
  PIPE_CONTROL_CACHE_FLUSH_BITS : Z;
  PIPE_CONTROL_CACHE_INVALIDATE_BITS : Z;
  PIPE_BARRIER_VERTEX_BUFFER : Z;
  PIPE_BARRIER_INDEX_BUFFER : Z;
  PIPE_BARRIER_INDIRECT_BUFFER : Z;
  PIPE_BARRIER_CONSTANT_BUFFER : Z;
  PIPE_BARRIER_TEXTURE : Z;
  PIPE_BARRIER_FRAMEBUFFER : Z;
  IRIS_BATCH_RENDER : nat;
  IRIS_BATCH_COMPUTE : nat;
  IRIS_BATCH_COUNT : nat
}.

(** ** Driver state *)

(** [struct iris_bo *]: a buffer object handle, or [NULL]. *)
Definition iris_bo_ptr : Type := option N.
Abbreviation NULL := (@None N).

(** [struct iris_screen]: only the workaround buffer is read here. *)
Record iris_screen := { workaround_bo : iris_bo_ptr }.

(** [struct hash_table] and [struct set] of [util/]: only their [entries]
    counter (a [uint32_t]) is read here. *)
Record cache_table := { entries : Z }.

(** The [cache] member of [struct iris_batch]. *)
Record iris_batch_cache := { render : cache_table; depth : cache_table }.

(** [struct iris_batch], restricted to the members the file reads.  The
    [vtbl] member is represented by [emit_raw_pipe_control] below. *)
Record iris_batch := {
  screen : iris_screen;
  contains_draw : bool;
  cache : iris_batch_cache
}.

(** [struct iris_context]: the array [batches[IRIS_BATCH_COUNT]], indexed by
    batch name. *)
Record iris_context := { batches : nat -> iris_batch }.

(** One call of [vtbl->emit_raw_pipe_control (batch, flags, bo, offset, imm)]:
    the batch is named by its index in [ice->batches]. *)
Record pipe_control := {
  pc_batch : nat;
  pc_flags : Z;
  pc_bo : iris_bo_ptr;
  pc_offset : Z;
  pc_imm : Z
}.

(** The state the functions run in: the context they read and the calls of
    the raw emitter so far, oldest first. *)
Record driver := { ice : iris_context; emitted : list pipe_control }.

(** ** The state monad of the driver *)

Definition M (A : Type) : Type := driver -> A * driver.

Definition ret {A} (a : A) : M A := fun d => (a, d).

Definition bind {A B} (m : M A) (k : A -> M B) : M B :=
  fun d => let (a, d') := m d in k a d'.

Notation "'let*' x ':=' m 'in' k" := (bind m (fun x => k))
  (at level 10, x name, m at level 100, k at level 200).
Notation "m >> k" := (bind m (fun _ => k))
  (at level 100, k at level 200, right associativity).

(** Final state of a computation. *)
Definition exec {A} (m : M A) (d : driver) : driver := snd (m d).

(** The calls a computation makes to the raw emitter, started in context
    [c] with nothing emitted yet. *)
Definition issued {A} (m : M A) (c : iris_context) : list pipe_control :=
  emitted (exec m {| ice := c; emitted := [] |}).

(** Dereference a batch pointer [&ice->batches[i]]. *)
Definition load_batch (batch : nat) : M iris_batch :=
  fun d => (batches (ice d) batch, d).

(** [batch->vtbl->emit_raw_pipe_control]: the encoder of [iris_state.c] is
    opaque here.  A call is recorded, with its arguments, at the end of the
    command stream; the members of the batches read by this file are taken
    to be left as they are. *)
Definition emit_raw_pipe_control (batch : nat) (flags : Z) (bo : iris_bo_ptr)
    (offset imm : Z) : M unit :=
  fun d =>
    (tt, {| ice := ice d;
            emitted := emitted d ++
              [{| pc_batch := batch; pc_flags := flags; pc_bo := bo;
                  pc_offset := offset; pc_imm := imm |}] |}).

(** [if (c) body], without else branch. *)
Definition when (c : bool) (body : M unit) : M unit :=
  if c then body else ret tt.

(** [for (...) body] over the successive values of the index. *)
Fixpoint for_each {A} (l : list A) (body : A -> M unit) : M unit :=
  match l with
  | [] => ret tt
  | i :: l' => body i >> for_each l' body
  end.

(** ** The functions of [iris_pipe_control.c] *)

Section PipeControl.
Context {D : iris_defs}.

Definition iris_emit_pipe_control_write (batch : nat) (flags : Z)
    (bo : iris_bo_ptr) (offset imm : Z) : M unit :=
  emit_raw_pipe_control batch flags bo offset imm.

Definition iris_emit_end_of_pipe_sync (batch : nat) (flags : Z) : M unit :=
  let* b := load_batch batch in
  iris_emit_pipe_control_write batch
    (Z.lor (Z.lor flags PIPE_CONTROL_CS_STALL) PIPE_CONTROL_WRITE_IMMEDIATE)
    (workaround_bo (screen b)) 0 0.

Definition iris_emit_pipe_control_flush (batch : nat) (flags : Z) : M unit :=
  let* flags :=
    (if truthy (Z.land flags PIPE_CONTROL_CACHE_FLUSH_BITS) &&
        truthy (Z.land flags PIPE_CONTROL_CACHE_INVALIDATE_BITS)
     then
       iris_emit_end_of_pipe_sync batch
         (Z.land flags PIPE_CONTROL_CACHE_FLUSH_BITS) >>
       ret (Z.land flags
              (uint32_t (Z.lnot (Z.lor PIPE_CONTROL_CACHE_FLUSH_BITS
                                       PIPE_CONTROL_CS_STALL))))
     else ret flags) in
  emit_raw_pipe_control batch flags NULL 0 0.

Definition iris_texture_barrier (flags : Z) : M unit :=
  let* render_batch := load_batch IRIS_BATCH_RENDER in
  when (contains_draw render_batch ||
        truthy (entries (render (cache render_batch))) ||
        truthy (entries (depth (cache render_batch))))
    (iris_emit_pipe_control_flush IRIS_BATCH_RENDER
       (Z.lor (Z.lor PIPE_CONTROL_DEPTH_CACHE_FLUSH
                     PIPE_CONTROL_RENDER_TARGET_FLUSH)
              PIPE_CONTROL_CS_STALL) >>
     iris_emit_pipe_control_flush IRIS_BATCH_RENDER
       PIPE_CONTROL_TEXTURE_CACHE_INVALIDATE) >>
  let* compute_batch := load_batch IRIS_BATCH_COMPUTE in
  when (contains_draw compute_batch)
    (iris_emit_pipe_control_flush IRIS_BATCH_COMPUTE PIPE_CONTROL_CS_STALL >>
     iris_emit_pipe_control_flush IRIS_BATCH_COMPUTE
       PIPE_CONTROL_TEXTURE_CACHE_INVALIDATE).

(** The value of [bits] when the loop of [iris_memory_barrier] starts. *)
Definition iris_memory_barrier_bits (flags : Z) : Z :=
  let bits := Z.lor PIPE_CONTROL_DATA_CACHE_FLUSH PIPE_CONTROL_CS_STALL in
  let bits :=
    if truthy (Z.land flags
                 (Z.lor (Z.lor PIPE_BARRIER_VERTEX_BUFFER
                               PIPE_BARRIER_INDEX_BUFFER)
                        PIPE_BARRIER_INDIRECT_BUFFER))
    then Z.lor bits PIPE_CONTROL_VF_CACHE_INVALIDATE
    else bits in
  let bits :=
    if truthy (Z.land flags PIPE_BARRIER_CONSTANT_BUFFER)
    then Z.lor bits (Z.lor PIPE_CONTROL_TEXTURE_CACHE_INVALIDATE
                           PIPE_CONTROL_CONST_CACHE_INVALIDATE)
    else bits in
  let bits :=
    if truthy (Z.land flags
                 (Z.lor PIPE_BARRIER_TEXTURE PIPE_BARRIER_FRAMEBUFFER))
    then Z.lor bits (Z.lor PIPE_CONTROL_TEXTURE_CACHE_INVALIDATE
                           PIPE_CONTROL_RENDER_TARGET_FLUSH)
    else bits in
  bits.

Definition iris_memory_barrier (flags : Z) : M unit :=
  let bits := iris_memory_barrier_bits flags in
  for_each (seq 0 IRIS_BATCH_COUNT) (fun i =>
    let* b := load_batch i in
    when (contains_draw b || truthy (entries (render (cache b))))
      (iris_emit_pipe_control_flush i bits)).

(** ** Vocabulary of the properties *)

(** [flags] has a bit of [mask]: the C test [flags & mask]. *)
Definition has_flag (flags mask : Z) : Prop := Z.land flags mask <> 0.

(** The condition under which [iris_emit_pipe_control_flush] splits. *)
Definition flush_and_invalidate (flags : Z) : bool :=
  truthy (Z.land flags PIPE_CONTROL_CACHE_FLUSH_BITS) &&
  truthy (Z.land flags PIPE_CONTROL_CACHE_INVALIDATE_BITS).

(** The render batch has work a texture barrier must wait for. *)
Definition render_work (b : iris_batch) : Prop :=
  contains_draw b = true \/ entries (render (cache b)) <> 0 \/
  entries (depth (cache b)) <> 0.

(** A batch has work a memory barrier must wait for. *)
Definition memory_work (b : iris_batch) : Prop :=
  contains_draw b = true \/ entries (render (cache b)) <> 0.

(** The flag set of a memory barrier, following the text of the
    specification: a base set, to which each group of resource kinds of the
    scope adds its flags. *)
Definition memory_barrier_flags (scope : Z) : Z :=
  let base := Z.lor PIPE_CONTROL_DATA_CACHE_FLUSH PIPE_CONTROL_CS_STALL in
  let vertex :=
    if decide (has_flag scope PIPE_BARRIER_VERTEX_BUFFER \/
               has_flag scope PIPE_BARRIER_INDEX_BUFFER \/
               has_flag scope PIPE_BARRIER_INDIRECT_BUFFER)
    then PIPE_CONTROL_VF_CACHE_INVALIDATE else 0 in
  let constant :=
    if decide (has_flag scope PIPE_BARRIER_CONSTANT_BUFFER)
    then Z.lor PIPE_CONTROL_TEXTURE_CACHE_INVALIDATE
               PIPE_CONTROL_CONST_CACHE_INVALIDATE
    else 0 in
  let texture :=
    if decide (has_flag scope PIPE_BARRIER_TEXTURE \/
               has_flag scope PIPE_BARRIER_FRAMEBUFFER)
    then Z.lor PIPE_CONTROL_TEXTURE_CACHE_INVALIDATE
               PIPE_CONTROL_RENDER_TARGET_FLUSH
    else 0 in
  Z.lor (Z.lor (Z.lor base vertex) constant) texture.

(** [flag] is a nonzero [uint32_t] flag of the group [mask]. *)
Definition flag_of (flag mask : Z) : Prop :=
  0 < flag < 2 ^ 32 /\ Z.land flag mask = flag.

(** [flag] is a nonzero [uint32_t] flag outside both cache groups. *)
Definition control_flag (flag : Z) : Prop :=
  0 < flag < 2 ^ 32 /\
  Z.land flag PIPE_CONTROL_CACHE_FLUSH_BITS = 0 /\
  Z.land flag PIPE_CONTROL_CACHE_INVALIDATE_BITS = 0.

(** Modelled from the spec: the definitions of the flags and of the two
    masks are in [iris_context.h], which is missing.  The data model of the
    specification partitions the flags into three disjoint groups: flush
    bits (render target, depth, data), invalidate bits (texture, constant,
    vertex fetch) and control/write bits (stall, write immediate, write depth
    count, write timestamp). *)
Definition cache_domain_partition : Prop :=
  Z.land PIPE_CONTROL_CACHE_FLUSH_BITS PIPE_CONTROL_CACHE_INVALIDATE_BITS = 0 /\
  flag_of PIPE_CONTROL_RENDER_TARGET_FLUSH PIPE_CONTROL_CACHE_FLUSH_BITS /\
  flag_of PIPE_CONTROL_DEPTH_CACHE_FLUSH PIPE_CONTROL_CACHE_FLUSH_BITS /\
  flag_of PIPE_CONTROL_DATA_CACHE_FLUSH PIPE_CONTROL_CACHE_FLUSH_BITS /\
  flag_of PIPE_CONTROL_TEXTURE_CACHE_INVALIDATE
          PIPE_CONTROL_CACHE_INVALIDATE_BITS /\
  flag_of PIPE_CONTROL_CONST_CACHE_INVALIDATE
          PIPE_CONTROL_CACHE_INVALIDATE_BITS /\
  flag_of PIPE_CONTROL_VF_CACHE_INVALIDATE
          PIPE_CONTROL_CACHE_INVALIDATE_BITS /\
  control_flag PIPE_CONTROL_CS_STALL /\
  control_flag PIPE_CONTROL_WRITE_IMMEDIATE /\
  control_flag PIPE_CONTROL_WRITE_DEPTH_COUNT /\
  control_flag PIPE_CONTROL_WRITE_TIMESTAMP.

End PipeControl.

(** The value a computation returns, started in context [c]. *)
Definition result {A} (m : M A) (c : iris_context) : A :=
  fst (m {| ice := c; emitted := [] |}).

(** A computation is steady when it leaves the context as it found it,
    appends its calls to the stream, and when neither these calls nor the
    value returned depend on what was emitted before. *)
Definition steady {A} (m : M A) : Prop :=
  forall d,
    m d = (result m (ice d),
           {| ice := ice d; emitted := emitted d ++ issued m (ice d) |}).

(** The calls of a stream made against batch [i]. *)
Definition on_batch (i : nat) (l : list pipe_control) : list pipe_control :=
  filter (fun p => pc_batch p = i) l.

(** The outstanding work of a batch: [contains_draw] and the [cache]. *)
Record batch_state := {
  bs_contains_draw : bool;
  bs_cache : iris_batch_cache
}.

(** The context [c] in which the outstanding work of every batch is
    replaced by [st]. *)
Definition with_batch_state (c : iris_context) (st : nat -> batch_state)
    : iris_context :=
  {| batches := fun i =>
       {| screen := screen (batches c i);
          contains_draw := bs_contains_draw (st i);
          cache := bs_cache (st i) |} |}.

(** The context [c] in which the depth cache of every batch has [n i]
    entries. *)
Definition with_depth_entries (c : iris_context) (n : nat -> Z)
    : iris_context :=
  {| batches := fun i =>
       {| screen := screen (batches c i);
          contains_draw := contains_draw (batches c i);
          cache := {| render := render (cache (batches c i));
                      depth := {| entries := n i |} |} |} |}.

(** One assignment of the constants, with every flag on a bit of its own; it
    is used to run the model on concrete inputs. *)
Definition sample_defs : iris_defs := {|
  PIPE_CONTROL_CS_STALL := Z.shiftl 1 4;
  PIPE_CONTROL_WRITE_IMMEDIATE := Z.shiftl 1 9;
  PIPE_CONTROL_WRITE_DEPTH_COUNT := Z.shiftl 1 10;
  PIPE_CONTROL_WRITE_TIMESTAMP := Z.shiftl 1 11;
  PIPE_CONTROL_RENDER_TARGET_FLUSH := Z.shiftl 1 13;
  PIPE_CONTROL_DEPTH_CACHE_FLUSH := Z.shiftl 1 24;
  PIPE_CONTROL_DATA_CACHE_FLUSH := Z.shiftl 1 19;
  PIPE_CONTROL_TEXTURE_CACHE_INVALIDATE := Z.shiftl 1 15;
  PIPE_CONTROL_CONST_CACHE_INVALIDATE := Z.shiftl 1 21;
  PIPE_CONTROL_VF_CACHE_INVALIDATE := Z.shiftl 1 20;
  PIPE_CONTROL_CACHE_FLUSH_BITS :=
    Z.lor (Z.lor (Z.shiftl 1 24) (Z.shiftl 1 13)) (Z.shiftl 1 19);
  PIPE_CONTROL_CACHE_INVALIDATE_BITS :=
    Z.lor (Z.lor (Z.lor (Z.lor (Z.shiftl 1 22) (Z.shiftl 1 21))
                        (Z.shiftl 1 20)) (Z.shiftl 1 15)) (Z.shiftl 1 14);
  PIPE_BARRIER_VERTEX_BUFFER := Z.shiftl 1 3;
  PIPE_BARRIER_INDEX_BUFFER := Z.shiftl 1 4;
  PIPE_BARRIER_INDIRECT_BUFFER := Z.shiftl 1 6;
  PIPE_BARRIER_CONSTANT_BUFFER := Z.shiftl 1 5;
  PIPE_BARRIER_TEXTURE := Z.shiftl 1 7;
  PIPE_BARRIER_FRAMEBUFFER := Z.shiftl 1 9;
  IRIS_BATCH_RENDER := 0;
  IRIS_BATCH_COMPUTE := 1;
  IRIS_BATCH_COUNT := 2
|}.

(** A batch built from its members. *)
Definition mk_batch (bo : iris_bo_ptr) (draw : bool) (r d : Z) : iris_batch :=
  {| screen := {| workaround_bo := bo |};
     contains_draw := draw;
     cache := {| render := {| entries := r |}; depth := {| entries := d |} |} |}.

(** A context whose render and compute batches are given, on a screen whose
    workaround buffer has handle 7. *)
Definition sample_context (rdraw : bool) (rr rd : Z) (cdraw : bool) (cr cd : Z)
    : iris_context :=
  {| batches := fun i =>
       match i with
       | O => mk_batch (Some 7%N) rdraw rr rd
       | _ => mk_batch (Some 7%N) cdraw cr cd
       end |}.

(** ** Further vocabulary: hazards, write targets, scopes *)

(** A value that fits a 32-bit unsigned word. *)
Definition is_uint32 (z : Z) : Prop := 0 <= z < 2 ^ 32.

(** The union of the flags of the calls of a stream. *)
Definition all_flags (l : list pipe_control) : Z :=
  foldr (fun p acc => Z.lor (pc_flags p) acc) 0 l.

(** The calls of a stream are in the order of their batches. *)
Definition in_batch_order (l : list pipe_control) : Prop :=
  StronglySorted (fun p q => (pc_batch p <= pc_batch q)%nat) l.

Section Hazards.
Context {D : iris_defs}.

(** The combination the comment of [iris_emit_pipe_control_flush] calls
    inherently racy: flush and invalidate bits set simultaneously. *)
Definition racy (flags : Z) : Prop :=
  has_flag flags PIPE_CONTROL_CACHE_FLUSH_BITS /\
  has_flag flags PIPE_CONTROL_CACHE_INVALIDATE_BITS.

(** A call that writes nothing, or that writes the immediate 0 at offset 0
    of the workaround buffer of its batch, with a stall. *)
Definition workaround_write (c : iris_context) (p : pipe_control) : Prop :=
  pc_offset p = 0 /\ pc_imm p = 0 /\
  (pc_bo p = NULL \/
   (pc_bo p = workaround_bo (screen (batches c (pc_batch p))) /\
    Z.land (pc_flags p) PIPE_CONTROL_WRITE_IMMEDIATE =
      PIPE_CONTROL_WRITE_IMMEDIATE /\
    Z.land (pc_flags p) PIPE_CONTROL_CS_STALL = PIPE_CONTROL_CS_STALL)).

(** The scope bits [iris_memory_barrier] tests. *)
Definition barrier_scope_mask : Z :=
  Z.lor (Z.lor (Z.lor (Z.lor (Z.lor PIPE_BARRIER_VERTEX_BUFFER
                                    PIPE_BARRIER_INDEX_BUFFER)
                             PIPE_BARRIER_INDIRECT_BUFFER)
                      PIPE_BARRIER_CONSTANT_BUFFER)
               PIPE_BARRIER_TEXTURE)
        PIPE_BARRIER_FRAMEBUFFER.

(** The two commands of a split request [flags] on [batch]. *)
Definition split_commands (c : iris_context) (batch : nat) (flags : Z)
    : list pipe_control :=
  [ {| pc_batch := batch;
       pc_flags := Z.lor (Z.lor (Z.land flags PIPE_CONTROL_CACHE_FLUSH_BITS)
                                PIPE_CONTROL_CS_STALL)
                         PIPE_CONTROL_WRITE_IMMEDIATE;
       pc_bo := workaround_bo (screen (batches c batch));
       pc_offset := 0; pc_imm := 0 |};
    {| pc_batch := batch;
       pc_flags := Z.ldiff flags (Z.lor PIPE_CONTROL_CACHE_FLUSH_BITS
                                        PIPE_CONTROL_CS_STALL);
       pc_bo := NULL; pc_offset := 0; pc_imm := 0 |} ].

End Hazards.

(** ** General lemmas on the command stream *)

Lemma steady_ret {A} (a : A) : steady (ret a).
Proof. intros [c s]. unfold ret, result, issued, exec. simpl. by rewrite app_nil_r. Qed.

Lemma steady_load_batch (batch : nat) : steady (load_batch batch).
Proof.
  intros [c s]. unfold load_batch, result, issued, exec. simpl.
  by rewrite app_nil_r.
Qed.

Lemma steady_emit_raw_pipe_control batch flags bo offset imm :
  steady (emit_raw_pipe_control batch flags bo offset imm).
Proof. by intros [c s]. Qed.

Lemma steady_bind {A B} (m : M A) (k : A -> M B) :
  steady m -> (forall a, steady (k a)) -> steady (bind m k).
Proof.
  intros Hm Hk [c s].
  unfold result, issued, exec, bind. simpl.
  rewrite (Hm {| ice := c; emitted := s |}), (Hm {| ice := c; emitted := [] |}).
  simpl. rewrite !Hk. simpl. by rewrite app_assoc.
Qed.

Lemma steady_when (b : bool) (body : M unit) : steady body -> steady (when b body).
Proof. destruct b; [done | intros _; apply steady_ret]. Qed.

Lemma steady_for_each {A} (l : list A) (body : A -> M unit) :
  (forall i, steady (body i)) -> steady (for_each l body).
Proof.
  intros Hbody. induction l as [|i l IH]; simpl.
  - apply steady_ret.
  - by apply steady_bind.
Qed.

Lemma steady_exec {A} (m : M A) (d : driver) :
  steady m ->
  exec m d = {| ice := ice d; emitted := emitted d ++ issued m (ice d) |}.
Proof. intros Hm. unfold exec. by rewrite Hm. Qed.

Lemma issued_ret {A} (a : A) c : issued (ret a) c = [].
Proof. done. Qed.

Lemma issued_emit_raw_pipe_control batch flags bo offset imm c :
  issued (emit_raw_pipe_control batch flags bo offset imm) c =
  [{| pc_batch := batch; pc_flags := flags; pc_bo := bo;
      pc_offset := offset; pc_imm := imm |}].
Proof. done. Qed.

Lemma issued_bind {A B} (m : M A) (k : A -> M B) c :
  steady m -> (forall a, steady (k a)) ->
  issued (bind m k) c = issued m c ++ issued (k (result m c)) c.
Proof.
  intros Hm Hk. unfold issued at 1. unfold exec, bind.
  rewrite (Hm {| ice := c; emitted := [] |}). simpl.
  by rewrite Hk.
Qed.

Lemma issued_when (b : bool) (body : M unit) c :
  issued (when b body) c = if b then issued body c else [].
Proof. by destruct b. Qed.

Lemma issued_for_each {A} (l : list A) (body : A -> M unit) c :
  (forall i, steady (body i)) ->
  issued (for_each l body) c = concat (map (fun i => issued (body i) c) l).
Proof.
  intros Hbody. induction l as [|i l IH]; simpl; [done|].
  rewrite issued_bind, IH; auto using steady_for_each.
Qed.

Lemma result_load_batch batch c : result (load_batch batch) c = batches c batch.
Proof. done. Qed.

Lemma issued_load_batch batch c : issued (load_batch batch) c = [].
Proof. done. Qed.

Lemma truthy_true (z : Z) : truthy z = true <-> z <> 0.
Proof. unfold truthy. destruct (Z.eqb_spec z 0); simpl; split; intros; done. Qed.

Lemma truthy_false (z : Z) : truthy z = false <-> z = 0.
Proof. unfold truthy. destruct (Z.eqb_spec z 0); simpl; split; intros; done. Qed.

(** A [uint32_t] has no bit at position 32 or above. *)
Lemma uint32_bits_high (z n : Z) : 0 <= z < 2 ^ 32 -> 32 <= n -> Z.testbit z n = false.
Proof.
  intros Hz Hn. rewrite <- (Z.mod_small z (2 ^ 32)) by done.
  apply Z.mod_pow2_bits_high. lia.
Qed.

(** [flags & ~mask] on [uint32_t] clears the bits of [mask] in [flags]. *)
Lemma land_uint32_lnot (flags mask : Z) :
  0 <= flags < 2 ^ 32 ->
  Z.land flags (uint32_t (Z.lnot mask)) = Z.ldiff flags mask.
Proof.
  intros Hflags. apply Z.bits_inj'. intros n Hn.
  rewrite Z.land_spec, Z.ldiff_spec. unfold uint32_t.
  destruct (Z.lt_ge_cases n 32) as [Hlt|Hge].
  - by rewrite Z.mod_pow2_bits_low, Z.lnot_spec.
  - by rewrite (uint32_bits_high flags n).
Qed.

(** *** Flag algebra *)

(** Bit [n] of every integer equation among the hypotheses, then of the
    goal. *)
Ltac bitwise n :=
  repeat match goal with
  | H : @eq Z _ _ |- _ =>
      apply (f_equal (fun z => Z.testbit z n)) in H; revert H
  end;
  repeat first
    [ rewrite Z.land_spec | rewrite Z.lor_spec | rewrite Z.ldiff_spec
    | rewrite Z.lnot_spec by done | rewrite Z.bits_0 ];
  repeat match goal with
  | |- context [Z.testbit ?a n] => destruct (Z.testbit a n)
  end;
  simpl; congruence.

Lemma has_flag_superset (flags flag : Z) :
  flag <> 0 -> Z.land flags flag = flag -> has_flag flags flag.
Proof. unfold has_flag. by intros ? ->. Qed.

Lemma has_flag_mask (flags flag mask : Z) :
  Z.land flag mask = flag -> has_flag flags flag -> has_flag flags mask.
Proof.
  unfold has_flag. intros Hsub Hhas Hzero. apply Hhas.
  apply Z.bits_inj'. intros n Hn. bitwise n.
Qed.

Lemma has_flag_lor (scope a b : Z) :
  has_flag scope (Z.lor a b) <-> has_flag scope a \/ has_flag scope b.
Proof.
  unfold has_flag. rewrite Z.land_lor_distr_r, Z.lor_eq_0_iff.
  destruct (decide (Z.land scope a = 0)); tauto.
Qed.

Lemma truthy_land_lor (scope a b : Z) :
  truthy (Z.land scope (Z.lor a b)) = true <->
  has_flag scope a \/ has_flag scope b.
Proof. rewrite truthy_true. apply has_flag_lor. Qed.

(** The first command of a split keeps the flush flag [r] of the request. *)
Lemma sync_flags_keep_flush (x t r fl st wi : Z) :
  Z.land r fl = r ->
  Z.land (Z.lor (Z.lor (Z.land (Z.lor x (Z.lor t r)) fl) st) wi) r = r.
Proof. intros Hr. apply Z.bits_inj'. intros n Hn. bitwise n. Qed.

(** The first command of a split has no bit of an invalidate flag [t]. *)
Lemma sync_flags_drop_invalidate (bits t fl inv st wi : Z) :
  Z.land t inv = t -> Z.land fl inv = 0 ->
  Z.land st inv = 0 -> Z.land wi inv = 0 ->
  Z.land (Z.lor (Z.lor (Z.land bits fl) st) wi) t = 0.
Proof. intros Ht Hfl Hst Hwi. apply Z.bits_inj'. intros n Hn. bitwise n. Qed.

(** The second command of a split keeps the invalidate flag [t] of the
    request. *)
Lemma rest_flags_keep_invalidate (x t r fl inv st : Z) :
  0 <= t < 2 ^ 32 ->
  Z.land t inv = t -> Z.land fl inv = 0 -> Z.land st inv = 0 ->
  Z.land (Z.land (Z.lor x (Z.lor t r))
                 (uint32_t (Z.lnot (Z.lor fl st)))) t = t.
Proof.
  intros Hrange Ht Hfl Hst. apply Z.bits_inj'. intros n Hn.
  rewrite !Z.land_spec. unfold uint32_t.
  destruct (Z.lt_ge_cases n 32) as [Hlt|Hge].
  - rewrite Z.mod_pow2_bits_low by done. bitwise n.
  - rewrite (uint32_bits_high t n) by done. by rewrite andb_false_r.
Qed.

(** The second command of a split has no bit of a flush flag [r]. *)
Lemma rest_flags_drop_flush (bits r fl st : Z) :
  Z.land r fl = r ->
  Z.land (Z.land bits (uint32_t (Z.lnot (Z.lor fl st)))) r = 0.
Proof.
  intros Hr. apply Z.bits_inj'. intros n Hn.
  rewrite !Z.land_spec, Z.bits_0. unfold uint32_t.
  destruct (Z.lt_ge_cases n 32) as [Hlt|Hge].
  - rewrite Z.mod_pow2_bits_low by done. bitwise n.
  - rewrite Z.mod_pow2_bits_high by lia. by rewrite andb_false_r.
Qed.

(** *** Calls against one batch *)

Lemma on_batch_app i l1 l2 : on_batch i (l1 ++ l2) = on_batch i l1 ++ on_batch i l2.
Proof. apply filter_app. Qed.

Lemma on_batch_same i l :
  Forall (fun p => pc_batch p = i) l -> on_batch i l = l.
Proof.
  induction 1 as [|p l Hp _ IH]; [done|].
  unfold on_batch in *. by rewrite filter_cons_True, IH.
Qed.

Lemma on_batch_other i j l :
  Forall (fun p => pc_batch p = j) l -> j <> i -> on_batch i l = [].
Proof.
  intros Hall Hne. induction Hall as [|p l Hp _ IH]; [done|].
  unfold on_batch in *. rewrite filter_cons_False; [done|congruence].
Qed.

Lemma on_batch_concat_nil {A} i (f : A -> list pipe_control) (l : list A) :
  (forall j, j ∈ l -> on_batch i (f j) = []) ->
  on_batch i (concat (map f l)) = [].
Proof.
  induction l as [|j l IH]; intros Hf; simpl; [done|].
  rewrite on_batch_app, Hf, IH; [done| |by left].
  intros k Hk. apply Hf. by right.
Qed.

Lemma on_batch_concat_seq i (f : nat -> list pipe_control) (a n : nat) :
  (forall j, Forall (fun p => pc_batch p = j) (f j)) ->
  (a <= i < a + n)%nat ->
  on_batch i (concat (map f (seq a n))) = f i.
Proof.
  intros Hf. revert a. induction n as [|n IH]; intros a Hi; [lia|].
  simpl. rewrite on_batch_app.
  destruct (decide (a = i)) as [->|Hne].
  - rewrite on_batch_same by done.
    rewrite on_batch_concat_nil; [by rewrite app_nil_r|].
    intros j Hj. apply (on_batch_other i j); [done|].
    apply elem_of_seq in Hj. lia.
  - rewrite (on_batch_other i a) by done.
    apply IH. lia.
Qed.

Section Properties.
Context {D : iris_defs}.

(** *** The functions are steady *)

Lemma steady_iris_emit_pipe_control_write batch flags bo offset imm :
  steady (iris_emit_pipe_control_write batch flags bo offset imm).
Proof. apply steady_emit_raw_pipe_control. Qed.

Lemma steady_iris_emit_end_of_pipe_sync batch flags :
  steady (iris_emit_end_of_pipe_sync batch flags).
Proof.
  apply steady_bind; [apply steady_load_batch|].
  intros b. apply steady_iris_emit_pipe_control_write.
Qed.

Lemma steady_iris_emit_pipe_control_flush batch flags :
  steady (iris_emit_pipe_control_flush batch flags).
Proof.
  apply steady_bind; [|intros; apply steady_emit_raw_pipe_control].
  destruct (_ && _); [|apply steady_ret].
  apply steady_bind; [apply steady_iris_emit_end_of_pipe_sync|].
  intros; apply steady_ret.
Qed.

Lemma steady_iris_texture_barrier flags : steady (iris_texture_barrier flags).
Proof.
  unfold iris_texture_barrier.
  repeat first
    [ apply steady_load_batch | apply steady_iris_emit_pipe_control_flush
    | apply steady_when | apply steady_bind | intro ].
Qed.

Lemma steady_iris_memory_barrier flags : steady (iris_memory_barrier flags).
Proof.
  apply steady_for_each. intros i.
  apply steady_bind; [apply steady_load_batch|].
  intros b. apply steady_when, steady_iris_emit_pipe_control_flush.
Qed.

(** *** What the flush helpers emit *)

Lemma issued_iris_emit_pipe_control_write batch flags bo offset imm c :
  issued (iris_emit_pipe_control_write batch flags bo offset imm) c =
  [{| pc_batch := batch; pc_flags := flags; pc_bo := bo;
      pc_offset := offset; pc_imm := imm |}].
Proof. done. Qed.

Lemma issued_iris_emit_end_of_pipe_sync batch flags c :
  issued (iris_emit_end_of_pipe_sync batch flags) c =
  [{| pc_batch := batch;
      pc_flags := Z.lor (Z.lor flags PIPE_CONTROL_CS_STALL)
                        PIPE_CONTROL_WRITE_IMMEDIATE;
      pc_bo := workaround_bo (screen (batches c batch));
      pc_offset := 0; pc_imm := 0 |}].
Proof. done. Qed.

Lemma flush_and_invalidate_true flags :
  flush_and_invalidate flags = true <->
  Z.land flags PIPE_CONTROL_CACHE_FLUSH_BITS <> 0 /\
  Z.land flags PIPE_CONTROL_CACHE_INVALIDATE_BITS <> 0.
Proof.
  unfold flush_and_invalidate.
  by rewrite andb_true_iff, !truthy_true.
Qed.

Lemma issued_iris_emit_pipe_control_flush batch flags c :
  issued (iris_emit_pipe_control_flush batch flags) c =
  if flush_and_invalidate flags then
    issued (iris_emit_end_of_pipe_sync batch
              (Z.land flags PIPE_CONTROL_CACHE_FLUSH_BITS)) c ++
    [{| pc_batch := batch;
        pc_flags := Z.land flags
          (uint32_t (Z.lnot (Z.lor PIPE_CONTROL_CACHE_FLUSH_BITS
                                   PIPE_CONTROL_CS_STALL)));
        pc_bo := NULL; pc_offset := 0; pc_imm := 0 |}]
  else
    [{| pc_batch := batch; pc_flags := flags;
        pc_bo := NULL; pc_offset := 0; pc_imm := 0 |}].
Proof.
  unfold iris_emit_pipe_control_flush, flush_and_invalidate.
  by destruct (_ && _).
Qed.

(** *** Properties of the flush helpers *)

(** C1.  A request with at least one cache-flush bit and at least one
    cache-invalidate bit is split: [iris_emit_pipe_control_flush] makes exactly
    two calls of the raw emitter, first the flush bits of the request with
    CS_STALL and WRITE_IMMEDIATE, writing 0 at offset 0 of the workaround
    buffer, then the request without its flush bits and without CS_STALL,
    with no write target. *)
Theorem flush_splits_flush_and_invalidate
    (c : iris_context) (s : list pipe_control) (batch : nat) (F : Z) :
  0 <= F < 2 ^ 32 ->
  has_flag F PIPE_CONTROL_CACHE_FLUSH_BITS ->
  has_flag F PIPE_CONTROL_CACHE_INVALIDATE_BITS ->
  exec (iris_emit_pipe_control_flush batch F) {| ice := c; emitted := s |} =
  {| ice := c;
     emitted := s ++
       [ {| pc_batch := batch;
            pc_flags :=
              Z.lor (Z.lor (Z.land F PIPE_CONTROL_CACHE_FLUSH_BITS)
                           PIPE_CONTROL_CS_STALL)
                    PIPE_CONTROL_WRITE_IMMEDIATE;
            pc_bo := workaround_bo (screen (batches c batch));
            pc_offset := 0; pc_imm := 0 |};
         {| pc_batch := batch;
            pc_flags :=
              Z.ldiff F (Z.lor PIPE_CONTROL_CACHE_FLUSH_BITS
                               PIPE_CONTROL_CS_STALL);
            pc_bo := NULL; pc_offset := 0; pc_imm := 0 |} ] |}.
Proof.
  intros HF Hflush Hinv.
  rewrite steady_exec by apply steady_iris_emit_pipe_control_flush.
  rewrite issued_iris_emit_pipe_control_flush.
  assert (flush_and_invalidate F = true) as ->
    by by apply flush_and_invalidate_true.
  rewrite issued_iris_emit_end_of_pipe_sync, land_uint32_lnot by done.
  done.
Qed.

(** C2.  A request that does not have both a flush bit and an invalidate bit
    is passed on as it is: one call of the raw emitter, same flags, no write
    target. *)
Theorem flush_passes_unsplit_request
    (c : iris_context) (s : list pipe_control) (batch : nat) (F : Z) :
  ~ (has_flag F PIPE_CONTROL_CACHE_FLUSH_BITS /\
     has_flag F PIPE_CONTROL_CACHE_INVALIDATE_BITS) ->
  exec (iris_emit_pipe_control_flush batch F) {| ice := c; emitted := s |} =
  {| ice := c;
     emitted := s ++
       [ {| pc_batch := batch; pc_flags := F;
            pc_bo := NULL; pc_offset := 0; pc_imm := 0 |} ] |}.
Proof.
  intros Hnot.
  rewrite steady_exec by apply steady_iris_emit_pipe_control_flush.
  rewrite issued_iris_emit_pipe_control_flush.
  destruct (flush_and_invalidate F) eqn:Hsplit; [|done].
  by apply flush_and_invalidate_true in Hsplit.
Qed.

(** C3.  [iris_emit_end_of_pipe_sync] makes one call of the raw emitter,
    whatever its flags [G]: [G] with CS_STALL and WRITE_IMMEDIATE, writing 0 at
    offset 0 of the workaround buffer. *)
Theorem end_of_pipe_sync_stalls_and_writes
    (c : iris_context) (s : list pipe_control) (batch : nat) (G : Z) :
  exec (iris_emit_end_of_pipe_sync batch G) {| ice := c; emitted := s |} =
  {| ice := c;
     emitted := s ++
       [ {| pc_batch := batch;
            pc_flags := Z.lor (Z.lor G PIPE_CONTROL_CS_STALL)
                              PIPE_CONTROL_WRITE_IMMEDIATE;
            pc_bo := workaround_bo (screen (batches c batch));
            pc_offset := 0; pc_imm := 0 |} ] |}.
Proof. done. Qed.

(** C8.  [iris_emit_pipe_control_write] hands its arguments to the raw
    emitter as they are, in one call; nothing is split on this path,
    whatever the flags. *)
Theorem write_passes_arguments_through
    (c : iris_context) (s : list pipe_control) (batch : nat)
    (flags : Z) (bo : iris_bo_ptr) (offset imm : Z) :
  exec (iris_emit_pipe_control_write batch flags bo offset imm)
       {| ice := c; emitted := s |} =
  {| ice := c;
     emitted := s ++
       [ {| pc_batch := batch; pc_flags := flags; pc_bo := bo;
            pc_offset := offset; pc_imm := imm |} ] |}.
Proof. done. Qed.

(** C9.  What [iris_emit_pipe_control_flush] and
    [iris_emit_end_of_pipe_sync] emit depends on their flags only: whatever
    the outstanding work of the batches ([st1], [st2]) and whatever was
    emitted before ([s1], [s2]), the calls appended to the stream are the
    same. *)
Theorem flush_and_sync_ignore_batch_state
    (c : iris_context) (st1 st2 : nat -> batch_state)
    (s1 s2 : list pipe_control) (batch : nat) (flags : Z) :
  (exists calls,
     emitted (exec (iris_emit_pipe_control_flush batch flags)
                {| ice := with_batch_state c st1; emitted := s1 |})
       = s1 ++ calls /\
     emitted (exec (iris_emit_pipe_control_flush batch flags)
                {| ice := with_batch_state c st2; emitted := s2 |})
       = s2 ++ calls) /\
  (exists calls,
     emitted (exec (iris_emit_end_of_pipe_sync batch flags)
                {| ice := with_batch_state c st1; emitted := s1 |})
       = s1 ++ calls /\
     emitted (exec (iris_emit_end_of_pipe_sync batch flags)
                {| ice := with_batch_state c st2; emitted := s2 |})
       = s2 ++ calls).
Proof.
  split.
  - exists (issued (iris_emit_pipe_control_flush batch flags) c).
    rewrite !steady_exec by apply steady_iris_emit_pipe_control_flush.
    simpl. by rewrite !issued_iris_emit_pipe_control_flush.
  - exists (issued (iris_emit_end_of_pipe_sync batch flags) c).
    done.
Qed.

(** C10.  The call [iris_emit_pipe_control_flush] makes itself, the last
    one on either path, has no write target (buffer NULL, offset 0, value 0),
    whatever the flags, write bits included.  A call with a buffer, if there
    is one, is the call of [iris_emit_pipe_control_write] made by the
    end-of-pipe sync of the split path. *)
Theorem flush_own_call_has_no_write_target
    (c : iris_context) (s : list pipe_control) (batch : nat) (F : Z) :
  exists (before : list pipe_control) (own : pipe_control),
    emitted (exec (iris_emit_pipe_control_flush batch F)
               {| ice := c; emitted := s |}) = s ++ before ++ [own] /\
    pc_batch own = batch /\
    pc_bo own = NULL /\ pc_offset own = 0 /\ pc_imm own = 0 /\
    before =
      (if flush_and_invalidate F
       then issued (iris_emit_end_of_pipe_sync batch
                      (Z.land F PIPE_CONTROL_CACHE_FLUSH_BITS)) c
       else []) /\
    issued (iris_emit_end_of_pipe_sync batch
              (Z.land F PIPE_CONTROL_CACHE_FLUSH_BITS)) c =
    issued (iris_emit_pipe_control_write batch
              (Z.lor (Z.lor (Z.land F PIPE_CONTROL_CACHE_FLUSH_BITS)
                            PIPE_CONTROL_CS_STALL)
                     PIPE_CONTROL_WRITE_IMMEDIATE)
              (workaround_bo (screen (batches c batch))) 0 0) c.
Proof.
  rewrite steady_exec by apply steady_iris_emit_pipe_control_flush.
  rewrite issued_iris_emit_pipe_control_flush.
  destruct (flush_and_invalidate F).
  - exists (issued (iris_emit_end_of_pipe_sync batch
                      (Z.land F PIPE_CONTROL_CACHE_FLUSH_BITS)) c).
    by eexists.
  - exists []. by eexists.
Qed.

(** *** What the barriers emit *)

Lemma issued_flush_on_its_batch batch flags c :
  Forall (fun p => pc_batch p = batch)
         (issued (iris_emit_pipe_control_flush batch flags) c).
Proof.
  rewrite issued_iris_emit_pipe_control_flush.
  destruct (flush_and_invalidate flags);
    rewrite ?issued_iris_emit_end_of_pipe_sync; by repeat constructor.
Qed.

Lemma render_work_test (b : iris_batch) :
  contains_draw b || truthy (entries (render (cache b)))
                  || truthy (entries (depth (cache b))) = true <->
  render_work b.
Proof.
  unfold render_work. rewrite !orb_true_iff, !truthy_true. tauto.
Qed.

Lemma memory_work_test (b : iris_batch) :
  contains_draw b || truthy (entries (render (cache b))) = true <->
  memory_work b.
Proof. unfold memory_work. by rewrite orb_true_iff, truthy_true. Qed.

Lemma if_test_decide {A} (b : bool) (P : Prop) `{Decision P} (x y : A) :
  (b = true <-> P) -> (if b then x else y) = (if decide P then x else y).
Proof.
  intros Hb. destruct b, (decide P) as [HP|HP]; try done.
  - destruct HP. by apply Hb.
  - by apply Hb in HP.
Qed.

Lemma issued_iris_texture_barrier flags c :
  issued (iris_texture_barrier flags) c =
  (if decide (render_work (batches c IRIS_BATCH_RENDER)) then
     issued (iris_emit_pipe_control_flush IRIS_BATCH_RENDER
               (Z.lor (Z.lor PIPE_CONTROL_DEPTH_CACHE_FLUSH
                             PIPE_CONTROL_RENDER_TARGET_FLUSH)
                      PIPE_CONTROL_CS_STALL)) c ++
     issued (iris_emit_pipe_control_flush IRIS_BATCH_RENDER
               PIPE_CONTROL_TEXTURE_CACHE_INVALIDATE) c
   else []) ++
  (if decide (contains_draw (batches c IRIS_BATCH_COMPUTE) = true) then
     issued (iris_emit_pipe_control_flush IRIS_BATCH_COMPUTE
               PIPE_CONTROL_CS_STALL) c ++
     issued (iris_emit_pipe_control_flush IRIS_BATCH_COMPUTE
               PIPE_CONTROL_TEXTURE_CACHE_INVALIDATE) c
   else []).
Proof.
  unfold iris_texture_barrier.
  rewrite issued_bind; [|apply steady_load_batch|].
  2: { intros b. repeat first
         [ apply steady_load_batch | apply steady_iris_emit_pipe_control_flush
         | apply steady_when | apply steady_bind | intro ]. }
  rewrite issued_load_batch, result_load_batch, app_nil_l.
  rewrite issued_bind.
  2: { apply steady_when, steady_bind; intros;
         apply steady_iris_emit_pipe_control_flush. }
  2: { intros _. apply steady_bind; [apply steady_load_batch|].
       intros b. apply steady_when, steady_bind; intros;
         apply steady_iris_emit_pipe_control_flush. }
  rewrite issued_when.
  rewrite (if_test_decide _ _ _ _ (render_work_test _)).
  f_equal.
  - destruct (decide _); [|done].
    apply issued_bind; intros; apply steady_iris_emit_pipe_control_flush.
  - rewrite issued_bind; [|apply steady_load_batch|].
    2: { intros b. apply steady_when, steady_bind; intros;
           apply steady_iris_emit_pipe_control_flush. }
    rewrite issued_load_batch, result_load_batch, app_nil_l, issued_when.
    destruct (contains_draw (batches c IRIS_BATCH_COMPUTE)).
    + rewrite decide_True by done.
      apply issued_bind; intros; apply steady_iris_emit_pipe_control_flush.
    + by rewrite decide_False by done.
Qed.

(** The flag set of the code is the flag set of the specification. *)
Lemma iris_memory_barrier_bits_flags (scope : Z) :
  iris_memory_barrier_bits scope = memory_barrier_flags scope.
Proof.
  unfold iris_memory_barrier_bits, memory_barrier_flags.
  rewrite (if_test_decide
             (truthy (Z.land scope
                        (Z.lor (Z.lor PIPE_BARRIER_VERTEX_BUFFER
                                      PIPE_BARRIER_INDEX_BUFFER)
                               PIPE_BARRIER_INDIRECT_BUFFER)))
             (has_flag scope PIPE_BARRIER_VERTEX_BUFFER \/
              has_flag scope PIPE_BARRIER_INDEX_BUFFER \/
              has_flag scope PIPE_BARRIER_INDIRECT_BUFFER)).
  2: { rewrite truthy_land_lor, has_flag_lor. tauto. }
  rewrite (if_test_decide
             (truthy (Z.land scope PIPE_BARRIER_CONSTANT_BUFFER))
             (has_flag scope PIPE_BARRIER_CONSTANT_BUFFER))
    by apply truthy_true.
  rewrite (if_test_decide
             (truthy (Z.land scope
                        (Z.lor PIPE_BARRIER_TEXTURE PIPE_BARRIER_FRAMEBUFFER)))
             (has_flag scope PIPE_BARRIER_TEXTURE \/
              has_flag scope PIPE_BARRIER_FRAMEBUFFER))
    by apply truthy_land_lor.
  repeat destruct (decide _); by rewrite ?Z.lor_0_r.
Qed.

Lemma issued_iris_memory_barrier scope c :
  issued (iris_memory_barrier scope) c =
  concat (map (fun i =>
                 if decide (memory_work (batches c i))
                 then issued (iris_emit_pipe_control_flush i
                                (memory_barrier_flags scope)) c
                 else [])
              (seq 0 IRIS_BATCH_COUNT)).
Proof.
  unfold iris_memory_barrier. rewrite issued_for_each.
  2: { intros i. apply steady_bind; [apply steady_load_batch|].
       intros b. apply steady_when, steady_iris_emit_pipe_control_flush. }
  f_equal. apply map_ext. intros i.
  rewrite issued_bind; [|apply steady_load_batch|].
  2: { intros b. apply steady_when, steady_iris_emit_pipe_control_flush. }
  rewrite issued_load_batch, result_load_batch, app_nil_l, issued_when.
  rewrite iris_memory_barrier_bits_flags.
  apply if_test_decide, memory_work_test.
Qed.

Lemma texture_barrier_algorithm_aux
    (c : iris_context) (s : list pipe_control) (flags : Z) :
  exec (iris_texture_barrier flags) {| ice := c; emitted := s |} =
  {| ice := c; emitted := s ++ issued (iris_texture_barrier flags) c |}.
Proof. by rewrite steady_exec by apply steady_iris_texture_barrier. Qed.

(** Under the data model of the flags none of the four requests of the
    texture barrier is split: the barrier emits them as they are. *)
Lemma texture_barrier_commands (c : iris_context) (flags : Z) :
  cache_domain_partition ->
  issued (iris_texture_barrier flags) c =
  (if decide (render_work (batches c IRIS_BATCH_RENDER)) then
     [ {| pc_batch := IRIS_BATCH_RENDER;
          pc_flags := Z.lor (Z.lor PIPE_CONTROL_DEPTH_CACHE_FLUSH
                                   PIPE_CONTROL_RENDER_TARGET_FLUSH)
                            PIPE_CONTROL_CS_STALL;
          pc_bo := NULL; pc_offset := 0; pc_imm := 0 |};
       {| pc_batch := IRIS_BATCH_RENDER;
          pc_flags := PIPE_CONTROL_TEXTURE_CACHE_INVALIDATE;
          pc_bo := NULL; pc_offset := 0; pc_imm := 0 |} ]
   else []) ++
  (if decide (contains_draw (batches c IRIS_BATCH_COMPUTE) = true) then
     [ {| pc_batch := IRIS_BATCH_COMPUTE;
          pc_flags := PIPE_CONTROL_CS_STALL;
          pc_bo := NULL; pc_offset := 0; pc_imm := 0 |};
       {| pc_batch := IRIS_BATCH_COMPUTE;
          pc_flags := PIPE_CONTROL_TEXTURE_CACHE_INVALIDATE;
          pc_bo := NULL; pc_offset := 0; pc_imm := 0 |} ]
   else []).
Proof.
  intros (Hdisjoint & [_ Hr] & [_ Hd] & _ & [_ Ht] & _ & _ &
          (_ & Hstall_fl & Hstall_inv) & _).
  assert (flush_and_invalidate
            (Z.lor (Z.lor PIPE_CONTROL_DEPTH_CACHE_FLUSH
                          PIPE_CONTROL_RENDER_TARGET_FLUSH)
                   PIPE_CONTROL_CS_STALL) = false) as Hflush.
  { unfold flush_and_invalidate. apply andb_false_iff. right.
    apply truthy_false, Z.bits_inj'. intros n Hn. clear Ht Hstall_fl.
    bitwise n. }
  assert (flush_and_invalidate PIPE_CONTROL_TEXTURE_CACHE_INVALIDATE = false)
    as Htexture.
  { unfold flush_and_invalidate. apply andb_false_iff. left.
    apply truthy_false, Z.bits_inj'. intros n Hn. clear Hr Hd Hstall_fl Hstall_inv.
    bitwise n. }
  assert (flush_and_invalidate PIPE_CONTROL_CS_STALL = false) as Hstall.
  { unfold flush_and_invalidate. apply andb_false_iff. left.
    by apply truthy_false. }
  rewrite issued_iris_texture_barrier.
  rewrite !issued_iris_emit_pipe_control_flush.
  by rewrite Hflush, Htexture, Hstall.
Qed.

(** *** Properties of the barriers *)

(** C4.  [iris_texture_barrier]: when the render batch contains a draw or
    has entries in its render or depth cache, two flushes are issued on it
    in this order, one for depth-cache flush, render-target flush and stall,
    one for texture-cache invalidate; then, when the compute batch contains a
    draw, two flushes are issued on it, one for stall, one for texture-cache
    invalidate.  Nothing else is emitted. *)
Theorem texture_barrier_algorithm
    (c : iris_context) (s : list pipe_control) (flags : Z) :
  exec (iris_texture_barrier flags) {| ice := c; emitted := s |} =
  {| ice := c;
     emitted := s ++
       (if decide (render_work (batches c IRIS_BATCH_RENDER)) then
          issued (iris_emit_pipe_control_flush IRIS_BATCH_RENDER
                    (Z.lor (Z.lor PIPE_CONTROL_DEPTH_CACHE_FLUSH
                                  PIPE_CONTROL_RENDER_TARGET_FLUSH)
                           PIPE_CONTROL_CS_STALL)) c ++
          issued (iris_emit_pipe_control_flush IRIS_BATCH_RENDER
                    PIPE_CONTROL_TEXTURE_CACHE_INVALIDATE) c
        else []) ++
       (if decide (contains_draw (batches c IRIS_BATCH_COMPUTE) = true) then
          issued (iris_emit_pipe_control_flush IRIS_BATCH_COMPUTE
                    PIPE_CONTROL_CS_STALL) c ++
          issued (iris_emit_pipe_control_flush IRIS_BATCH_COMPUTE
                    PIPE_CONTROL_TEXTURE_CACHE_INVALIDATE) c
        else []) |}.
Proof.
  rewrite steady_exec by apply steady_iris_texture_barrier.
  by rewrite issued_iris_texture_barrier.
Qed.

(** C5.  [iris_memory_barrier] computes one flag set from its scope, the one
    of [memory_barrier_flags], and issues one flush with it on every batch
    that contains a draw or has entries in its render cache, in the order of
    the batches.  The entries of the depth caches play no part. *)
Theorem memory_barrier_algorithm
    (c : iris_context) (s : list pipe_control) (scope : Z) :
  exec (iris_memory_barrier scope) {| ice := c; emitted := s |} =
  {| ice := c;
     emitted := s ++
       concat (map (fun i =>
                      if decide (memory_work (batches c i))
                      then issued (iris_emit_pipe_control_flush i
                                     (memory_barrier_flags scope)) c
                      else [])
                   (seq 0 IRIS_BATCH_COUNT)) |} /\
  (forall n : nat -> Z,
     emitted (exec (iris_memory_barrier scope)
                {| ice := with_depth_entries c n; emitted := s |}) =
     emitted (exec (iris_memory_barrier scope)
                {| ice := c; emitted := s |})).
Proof.
  split.
  - rewrite steady_exec by apply steady_iris_memory_barrier.
    by rewrite issued_iris_memory_barrier.
  - intros n. rewrite !steady_exec by apply steady_iris_memory_barrier.
    simpl. rewrite !issued_iris_memory_barrier.
    do 2 f_equal. apply map_ext. intros i.
    rewrite !issued_iris_emit_pipe_control_flush. reflexivity.
Qed.

(** C6.  A batch without outstanding work receives no command.  When the
    render batch contains no draw and has empty render and depth caches, and
    the compute batch contains no draw, [iris_texture_barrier] emits
    nothing.  Whatever the scope, [iris_memory_barrier] emits nothing against
    a batch that contains no draw and has an empty render cache.  Batch by
    batch, [iris_texture_barrier] emits nothing against a batch [i] that is
    idle in each role it has: as render batch, no draw and empty render and
    depth caches; as compute batch, no draw.  In particular, the two names
    being different, an idle render batch receives nothing whatever the
    compute batch holds, and a compute batch without draw receives nothing
    whatever the render batch holds. *)
Theorem barriers_skip_idle_batches
    (c : iris_context) (s : list pipe_control) :
  (forall flags : Z,
     contains_draw (batches c IRIS_BATCH_RENDER) = false ->
     entries (render (cache (batches c IRIS_BATCH_RENDER))) = 0 ->
     entries (depth (cache (batches c IRIS_BATCH_RENDER))) = 0 ->
     contains_draw (batches c IRIS_BATCH_COMPUTE) = false ->
     exec (iris_texture_barrier flags) {| ice := c; emitted := s |} =
     {| ice := c; emitted := s |}) /\
  (forall (scope : Z) (i : nat),
     contains_draw (batches c i) = false ->
     entries (render (cache (batches c i))) = 0 ->
     exists calls,
       exec (iris_memory_barrier scope) {| ice := c; emitted := s |} =
       {| ice := c; emitted := s ++ calls |} /\
       on_batch i calls = []) /\
  (forall (flags : Z) (i : nat),
     (i = IRIS_BATCH_RENDER -> ~ render_work (batches c i)) ->
     (i = IRIS_BATCH_COMPUTE -> contains_draw (batches c i) = false) ->
     exists calls,
       exec (iris_texture_barrier flags) {| ice := c; emitted := s |} =
       {| ice := c; emitted := s ++ calls |} /\
       on_batch i calls = []) /\
  (forall flags : Z,
     IRIS_BATCH_RENDER <> IRIS_BATCH_COMPUTE ->
     contains_draw (batches c IRIS_BATCH_RENDER) = false ->
     entries (render (cache (batches c IRIS_BATCH_RENDER))) = 0 ->
     entries (depth (cache (batches c IRIS_BATCH_RENDER))) = 0 ->
     exists calls,
       exec (iris_texture_barrier flags) {| ice := c; emitted := s |} =
       {| ice := c; emitted := s ++ calls |} /\
       on_batch IRIS_BATCH_RENDER calls = []) /\
  (forall flags : Z,
     IRIS_BATCH_RENDER <> IRIS_BATCH_COMPUTE ->
     contains_draw (batches c IRIS_BATCH_COMPUTE) = false ->
     exists calls,
       exec (iris_texture_barrier flags) {| ice := c; emitted := s |} =
       {| ice := c; emitted := s ++ calls |} /\
       on_batch IRIS_BATCH_COMPUTE calls = []).
Proof.
  assert (forall (flags : Z) (i : nat),
     (i = IRIS_BATCH_RENDER -> ~ render_work (batches c i)) ->
     (i = IRIS_BATCH_COMPUTE -> contains_draw (batches c i) = false) ->
     exists calls,
       exec (iris_texture_barrier flags) {| ice := c; emitted := s |} =
       {| ice := c; emitted := s ++ calls |} /\
       on_batch i calls = []) as Hbatch.
  { intros flags i Hrender Hcompute.
    exists (issued (iris_texture_barrier flags) c).
    split; [apply texture_barrier_algorithm_aux|].
    rewrite issued_iris_texture_barrier, on_batch_app.
    assert (forall j f1 f2,
              j <> i ->
              on_batch i (issued (iris_emit_pipe_control_flush j f1) c ++
                          issued (iris_emit_pipe_control_flush j f2) c) = [])
      as Hother.
    { intros j f1 f2 Hj. apply (on_batch_other i j); [|done].
      apply Forall_app. split; apply issued_flush_on_its_batch. }
    assert (on_batch i
              (if decide (render_work (batches c IRIS_BATCH_RENDER)) then
                 issued (iris_emit_pipe_control_flush IRIS_BATCH_RENDER
                           (Z.lor (Z.lor PIPE_CONTROL_DEPTH_CACHE_FLUSH
                                         PIPE_CONTROL_RENDER_TARGET_FLUSH)
                                  PIPE_CONTROL_CS_STALL)) c ++
                 issued (iris_emit_pipe_control_flush IRIS_BATCH_RENDER
                           PIPE_CONTROL_TEXTURE_CACHE_INVALIDATE) c
               else []) = []) as ->.
    { destruct (decide _) as [Hwork|_]; [|done].
      apply Hother. intros Heq. subst i. by apply Hrender. }
    destruct (decide _) as [Hdraw|_]; [|done].
    apply Hother. intros Heq. subst i.
    rewrite Hcompute in Hdraw; done. }
  split; [|split; [|split; [exact Hbatch|split]]].
  - intros flags Hdraw Hrender Hdepth Hcompute.
    rewrite texture_barrier_algorithm_aux, issued_iris_texture_barrier.
    rewrite decide_False, decide_False, app_nil_r; [done|congruence|].
    unfold render_work. rewrite Hdraw, Hrender, Hdepth.
    intros [?|[?|?]]; done.
  - intros scope i Hdraw Hrender.
    exists (issued (iris_memory_barrier scope) c). split.
    + by rewrite steady_exec by apply steady_iris_memory_barrier.
    + rewrite issued_iris_memory_barrier.
      apply on_batch_concat_nil. intros j _.
      destruct (decide (j = i)) as [->|Hne].
      * rewrite decide_False; [done|].
        unfold memory_work. rewrite Hdraw, Hrender.
        intros [?|?]; done.
      * destruct (decide _); [|done].
        apply (on_batch_other i j); [|done].
        apply issued_flush_on_its_batch.
  - intros flags Hnames Hdraw Hrender Hdepth.
    apply Hbatch; [|done].
    intros _. unfold render_work. rewrite Hdraw, Hrender, Hdepth.
    intros [?|[?|?]]; done.
  - intros flags Hnames Hdraw.
    apply Hbatch; [|done].
    intros Heq. by destruct Hnames.
Qed.

(** With texture in the scope, the flag set of a memory barrier has both
    texture-cache invalidate and render-target flush. *)
Lemma memory_barrier_flags_texture (scope : Z) :
  has_flag scope PIPE_BARRIER_TEXTURE ->
  exists x,
    memory_barrier_flags scope =
    Z.lor x (Z.lor PIPE_CONTROL_TEXTURE_CACHE_INVALIDATE
                   PIPE_CONTROL_RENDER_TARGET_FLUSH).
Proof.
  intros Htex. unfold memory_barrier_flags.
  destruct (decide (has_flag scope PIPE_BARRIER_TEXTURE \/
                    has_flag scope PIPE_BARRIER_FRAMEBUFFER)) as [_|Hnot].
  - by eexists.
  - destruct Hnot. by left.
Qed.

(** C7.  On a batch that contains a draw, a memory barrier whose scope has
    texture emits two commands: the first has render-target flush, the
    second, later one has texture-cache invalidate; and no command of the
    barrier, on any batch, has both. *)
Theorem memory_barrier_texture_flushes_then_invalidates
    (c : iris_context) (s : list pipe_control) (scope : Z) (i : nat) :
  cache_domain_partition ->
  (i < IRIS_BATCH_COUNT)%nat ->
  contains_draw (batches c i) = true ->
  has_flag scope PIPE_BARRIER_TEXTURE ->
  exists (calls : list pipe_control) (first second : pipe_control),
    exec (iris_memory_barrier scope) {| ice := c; emitted := s |} =
    {| ice := c; emitted := s ++ calls |} /\
    on_batch i calls = [first; second] /\
    has_flag (pc_flags first) PIPE_CONTROL_RENDER_TARGET_FLUSH /\
    has_flag (pc_flags second) PIPE_CONTROL_TEXTURE_CACHE_INVALIDATE /\
    Forall (fun p =>
              ~ (has_flag (pc_flags p) PIPE_CONTROL_RENDER_TARGET_FLUSH /\
                 has_flag (pc_flags p) PIPE_CONTROL_TEXTURE_CACHE_INVALIDATE))
           calls.
Proof.
  intros (Hdisjoint & [Hr_range Hr] & _ & _ & [Ht_range Ht] & _ & _ &
          (_ & _ & Hstall) & (_ & _ & Hwrite) & _) Hi Hdraw Hscope.
  destruct (memory_barrier_flags_texture scope Hscope) as [x Hbits].
  set (t := PIPE_CONTROL_TEXTURE_CACHE_INVALIDATE) in *.
  set (r := PIPE_CONTROL_RENDER_TARGET_FLUSH) in *.
  set (fl := PIPE_CONTROL_CACHE_FLUSH_BITS) in *.
  set (inv := PIPE_CONTROL_CACHE_INVALIDATE_BITS) in *.
  assert (Z.land (Z.lor x (Z.lor t r)) r = r) as Hhas_r
    by (apply Z.bits_inj'; intros n Hn; clear -n; bitwise n).
  assert (Z.land (Z.lor x (Z.lor t r)) t = t) as Hhas_t
    by (apply Z.bits_inj'; intros n Hn; clear -n; bitwise n).
  assert (flush_and_invalidate (memory_barrier_flags scope) = true) as Hsplit.
  { apply flush_and_invalidate_true. rewrite Hbits. split.
    - apply (has_flag_mask _ r); [done|]. apply has_flag_superset; [lia|done].
    - apply (has_flag_mask _ t); [done|]. apply has_flag_superset; [lia|done]. }
  assert (forall j,
    issued (iris_emit_pipe_control_flush j (memory_barrier_flags scope)) c =
    [ {| pc_batch := j;
         pc_flags := Z.lor (Z.lor (Z.land (Z.lor x (Z.lor t r)) fl)
                                  PIPE_CONTROL_CS_STALL)
                           PIPE_CONTROL_WRITE_IMMEDIATE;
         pc_bo := workaround_bo (screen (batches c j));
         pc_offset := 0; pc_imm := 0 |};
      {| pc_batch := j;
         pc_flags := Z.land (Z.lor x (Z.lor t r))
                       (uint32_t (Z.lnot (Z.lor fl PIPE_CONTROL_CS_STALL)));
         pc_bo := NULL; pc_offset := 0; pc_imm := 0 |} ]) as Hflush.
  { intros j. rewrite issued_iris_emit_pipe_control_flush, Hsplit.
    by rewrite issued_iris_emit_end_of_pipe_sync, Hbits. }
  pose proof (sync_flags_keep_flush x t r fl PIPE_CONTROL_CS_STALL
                PIPE_CONTROL_WRITE_IMMEDIATE Hr) as Hfirst_r.
  pose proof (sync_flags_drop_invalidate (Z.lor x (Z.lor t r)) t fl inv
                PIPE_CONTROL_CS_STALL PIPE_CONTROL_WRITE_IMMEDIATE
                Ht Hdisjoint Hstall Hwrite) as Hfirst_t.
  pose proof (rest_flags_keep_invalidate x t r fl inv PIPE_CONTROL_CS_STALL
                ltac:(lia) Ht Hdisjoint Hstall) as Hsecond_t.
  pose proof (rest_flags_drop_flush (Z.lor x (Z.lor t r)) r fl
                PIPE_CONTROL_CS_STALL Hr) as Hsecond_r.
  eexists (issued (iris_memory_barrier scope) c), _, _.
  split; [by rewrite steady_exec by apply steady_iris_memory_barrier|].
  rewrite issued_iris_memory_barrier.
  split.
  { rewrite on_batch_concat_seq; [| |lia].
    - rewrite decide_True by by left. apply Hflush.
    - intros j. destruct (decide _); [|constructor].
      apply issued_flush_on_its_batch. }
  split; [apply has_flag_superset; [lia|done]|].
  split; [apply has_flag_superset; [lia|done]|].
  apply Forall_concat, List.Forall_map, Forall_forall. intros j _.
  destruct (decide _); [|constructor].
  rewrite Hflush. unfold has_flag.
  repeat constructor; simpl; intros [? ?]; done.
Qed.

End Properties.

(** ** Further properties of the emitted commands *)

Lemma uint32_lor (a b : Z) : is_uint32 a -> is_uint32 b -> is_uint32 (Z.lor a b).
Proof.
  intros Ha Hb. pose proof Ha as [Ha0 _]. pose proof Hb as [Hb0 _].
  assert (0 <= Z.lor a b) as Hnonneg by by apply Z.lor_nonneg.
  split; [done|].
  apply (Z.bounded_iff_bits_nonneg 32); [lia|done|].
  intros n Hn. by rewrite Z.lor_spec, !uint32_bits_high.
Qed.

Lemma uint32_land_l (a b : Z) : is_uint32 a -> is_uint32 (Z.land a b).
Proof.
  intros Ha. pose proof Ha as [Ha0 _].
  assert (0 <= Z.land a b) as Hnonneg by (apply Z.land_nonneg; by left).
  split; [done|].
  apply (Z.bounded_iff_bits_nonneg 32); [lia|done|].
  intros n Hn. by rewrite Z.land_spec, (uint32_bits_high a).
Qed.

Lemma has_flag_mono (s1 s2 kind : Z) :
  Z.land s1 s2 = s1 -> has_flag s1 kind -> has_flag s2 kind.
Proof.
  unfold has_flag. intros Hsub Hhas Hzero. apply Hhas.
  apply Z.bits_inj'. intros n Hn. bitwise n.
Qed.

Lemma Forall_concat_map {A B} (P : B -> Prop) (f : A -> list B) (l : list A) :
  (forall i, i ∈ l -> Forall P (f i)) -> Forall P (concat (map f l)).
Proof.
  induction l as [|i l IH]; intros Hf; simpl; [constructor|].
  apply Forall_app. split; [apply Hf; by left|].
  apply IH. intros j Hj. apply Hf. by right.
Qed.

Lemma same_batch_in_order (j : nat) (l : list pipe_control) :
  Forall (fun p => pc_batch p = j) l -> in_batch_order l.
Proof.
  unfold in_batch_order. induction 1 as [|p l Hp Hl IH]; constructor; [done|].
  eapply Forall_impl; [exact Hl|]. simpl. intros q Hq. lia.
Qed.

Lemma concat_seq_in_order (f : nat -> list pipe_control) (a n : nat) :
  (forall j, Forall (fun p => pc_batch p = j) (f j)) ->
  in_batch_order (concat (map f (seq a n))) /\
  Forall (fun p => (a <= pc_batch p)%nat) (concat (map f (seq a n))).
Proof.
  intros Hf. revert a. induction n as [|n IH]; intros a; simpl.
  - split; constructor.
  - destruct (IH (S a)) as [Hsorted Hlow].
    assert (Forall (fun p => (a <= pc_batch p)%nat) (f a)) as Hhere.
    { eapply Forall_impl; [apply Hf|]. simpl. intros p Hp. lia. }
    split.
    + apply StronglySorted_app_2;
        [|exact (same_batch_in_order a (f a) (Hf a))|exact Hsorted].
      intros p q Hp Hq.
      pose proof (Hf a) as Ha. rewrite Forall_forall in Ha, Hlow.
      specialize (Ha p Hp). specialize (Hlow q Hq). lia.
    + apply Forall_app. split; [done|].
      eapply Forall_impl; [exact Hlow|]. simpl. intros p Hp. lia.
Qed.

Lemma length_concat_map_le {A B} (f : A -> list B) (l : list A) (k : nat) :
  (forall i, (length (f i) <= k)%nat) ->
  (length (concat (map f l)) <= k * length l)%nat.
Proof.
  intros Hf. induction l as [|i l IH]; simpl; [lia|].
  rewrite length_app. specialize (Hf i). lia.
Qed.

Section MoreProperties.
Context {D : iris_defs}.

Lemma flush_and_invalidate_false flags :
  flush_and_invalidate flags = false <-> ~ racy flags.
Proof.
  pose proof (flush_and_invalidate_true flags) as Htrue. unfold racy.
  destruct (flush_and_invalidate flags).
  - split; [done|]. intros Hnot. destruct Hnot. by apply Htrue.
  - split; [|done]. intros _ Hracy. by apply Htrue in Hracy.
Qed.

(** Every call of the texture barrier comes from one of its flushes. *)
Lemma Forall_issued_iris_texture_barrier (P : pipe_control -> Prop) flags c :
  (forall batch f, Forall P (issued (iris_emit_pipe_control_flush batch f) c)) ->
  Forall P (issued (iris_texture_barrier flags) c).
Proof.
  intros Hflush. rewrite issued_iris_texture_barrier.
  apply Forall_app. split; destruct (decide _); try constructor;
    apply Forall_app; split; apply Hflush.
Qed.

(** Every call of the memory barrier comes from one of its flushes. *)
Lemma Forall_issued_iris_memory_barrier (P : pipe_control -> Prop) scope c :
  (forall batch f, Forall P (issued (iris_emit_pipe_control_flush batch f) c)) ->
  Forall P (issued (iris_memory_barrier scope) c).
Proof.
  intros Hflush. rewrite issued_iris_memory_barrier.
  apply Forall_concat_map. intros i _.
  destruct (decide _); [apply Hflush|constructor].
Qed.

Lemma flush_not_racy_aux (c : iris_context) (batch : nat) (F : Z) :
  Z.land PIPE_CONTROL_CACHE_FLUSH_BITS PIPE_CONTROL_CACHE_INVALIDATE_BITS = 0 ->
  Z.land PIPE_CONTROL_CS_STALL PIPE_CONTROL_CACHE_INVALIDATE_BITS = 0 ->
  Z.land PIPE_CONTROL_WRITE_IMMEDIATE PIPE_CONTROL_CACHE_INVALIDATE_BITS = 0 ->
  Forall (fun p => ~ racy (pc_flags p))
         (issued (iris_emit_pipe_control_flush batch F) c).
Proof.
  intros Hfl Hst Hwi.
  rewrite issued_iris_emit_pipe_control_flush.
  destruct (flush_and_invalidate F) eqn:Hsplit.
  - rewrite issued_iris_emit_end_of_pipe_sync.
    repeat constructor; simpl; intros [Hflush Hinv].
    + apply Hinv. apply Z.bits_inj'. intros n Hn. bitwise n.
    + apply Hflush.
      apply (rest_flags_drop_flush F PIPE_CONTROL_CACHE_FLUSH_BITS).
      apply Z.land_diag.
  - repeat constructor. simpl. by apply flush_and_invalidate_false.
Qed.

(** X1.  When the flush bits, the stall bit and the write-immediate bit are
    disjoint from the invalidate bits, no command emitted by
    [iris_emit_pipe_control_flush] has a flush bit together with an
    invalidate bit, whatever the request. *)
Theorem flush_never_emits_racy_command
    (c : iris_context) (batch : nat) (F : Z) :
  Z.land PIPE_CONTROL_CACHE_FLUSH_BITS PIPE_CONTROL_CACHE_INVALIDATE_BITS = 0 ->
  Z.land PIPE_CONTROL_CS_STALL PIPE_CONTROL_CACHE_INVALIDATE_BITS = 0 ->
  Z.land PIPE_CONTROL_WRITE_IMMEDIATE PIPE_CONTROL_CACHE_INVALIDATE_BITS = 0 ->
  Forall (fun p => ~ racy (pc_flags p))
         (issued (iris_emit_pipe_control_flush batch F) c).
Proof. apply flush_not_racy_aux. Qed.

(** X2.  Under the same disjointness, neither barrier ever emits a command
    with a flush bit together with an invalidate bit, whatever the state of
    the batches and the scope. *)
Theorem barriers_never_emit_racy_command
    (c : iris_context) (flags scope : Z) :
  Z.land PIPE_CONTROL_CACHE_FLUSH_BITS PIPE_CONTROL_CACHE_INVALIDATE_BITS = 0 ->
  Z.land PIPE_CONTROL_CS_STALL PIPE_CONTROL_CACHE_INVALIDATE_BITS = 0 ->
  Z.land PIPE_CONTROL_WRITE_IMMEDIATE PIPE_CONTROL_CACHE_INVALIDATE_BITS = 0 ->
  Forall (fun p => ~ racy (pc_flags p)) (issued (iris_texture_barrier flags) c) /\
  Forall (fun p => ~ racy (pc_flags p)) (issued (iris_memory_barrier scope) c).
Proof.
  intros Hfl Hst Hwi. split.
  - apply Forall_issued_iris_texture_barrier.
    intros. by apply flush_not_racy_aux.
  - apply Forall_issued_iris_memory_barrier.
    intros. by apply flush_not_racy_aux.
Qed.

(** X3.  A flush drops no bit of its request: the union of the flags of the
    commands emitted for a 32-bit request [F] is [F] itself when nothing is
    split, and [F] with CS_STALL and WRITE_IMMEDIATE when the request is
    split. *)
Theorem flush_keeps_every_requested_bit
    (c : iris_context) (batch : nat) (F : Z) :
  is_uint32 F ->
  all_flags (issued (iris_emit_pipe_control_flush batch F) c) =
  if flush_and_invalidate F
  then Z.lor (Z.lor F PIPE_CONTROL_CS_STALL) PIPE_CONTROL_WRITE_IMMEDIATE
  else F.
Proof.
  intros HF. rewrite issued_iris_emit_pipe_control_flush.
  destruct (flush_and_invalidate F).
  - rewrite issued_iris_emit_end_of_pipe_sync, land_uint32_lnot by done.
    simpl. apply Z.bits_inj'. intros n Hn. clear HF. bitwise n.
  - simpl. apply Z.lor_0_r.
Qed.

Lemma flush_writes_to_workaround_only_aux c batch F :
  Forall (workaround_write c) (issued (iris_emit_pipe_control_flush batch F) c).
Proof.
  rewrite issued_iris_emit_pipe_control_flush.
  destruct (flush_and_invalidate F).
  - rewrite issued_iris_emit_end_of_pipe_sync.
    apply Forall_cons. split; [|apply Forall_cons; split; [|constructor]].
    + split; [done|]. split; [done|]. right. simpl.
      repeat split; apply Z.bits_inj'; intros n Hn; bitwise n.
    + split; [done|]. split; [done|]. by left.
  - apply Forall_cons. split; [|constructor].
    split; [done|]. split; [done|]. by left.
Qed.

(** X4.  Whatever they are asked, the flush helper and the two barriers
    write nowhere but at offset 0 of the workaround buffer of the batch, and
    nothing but the immediate 0: every command they emit either has no
    buffer, or has that buffer together with WRITE_IMMEDIATE and CS_STALL. *)
Theorem flush_and_barriers_write_to_workaround_only
    (c : iris_context) (batch : nat) (F flags scope : Z) :
  Forall (workaround_write c)
         (issued (iris_emit_pipe_control_flush batch F) c) /\
  Forall (workaround_write c) (issued (iris_texture_barrier flags) c) /\
  Forall (workaround_write c) (issued (iris_memory_barrier scope) c).
Proof.
  split; [apply flush_writes_to_workaround_only_aux|]. split.
  - apply Forall_issued_iris_texture_barrier.
    intros; apply flush_writes_to_workaround_only_aux.
  - apply Forall_issued_iris_memory_barrier.
    intros; apply flush_writes_to_workaround_only_aux.
Qed.

(** *** The flag set of the memory barrier *)

Lemma flag_of_uint32 (flag mask : Z) : flag_of flag mask -> is_uint32 flag.
Proof. intros [Hrange _]. unfold is_uint32. lia. Qed.

Lemma control_flag_uint32 (flag : Z) : control_flag flag -> is_uint32 flag.
Proof. intros [Hrange _]. unfold is_uint32. lia. Qed.

Lemma memory_barrier_flags_uint32 (scope : Z) :
  cache_domain_partition -> is_uint32 (memory_barrier_flags scope).
Proof.
  intros (_ & Hr & _ & Hdata & Ht & Hc & Hv & Hstall & _).
  apply flag_of_uint32 in Hr, Hdata, Ht, Hc, Hv.
  apply control_flag_uint32 in Hstall.
  assert (is_uint32 0) by (unfold is_uint32; lia).
  unfold memory_barrier_flags.
  repeat destruct (decide _); repeat apply uint32_lor; done.
Qed.

Lemma memory_barrier_flags_no_scope (scope : Z) :
  ~ has_flag scope barrier_scope_mask ->
  memory_barrier_flags scope =
  Z.lor PIPE_CONTROL_DATA_CACHE_FLUSH PIPE_CONTROL_CS_STALL.
Proof.
  unfold barrier_scope_mask. rewrite !has_flag_lor. intros Hnone.
  unfold memory_barrier_flags.
  repeat destruct (decide _); try (exfalso; tauto).
  by rewrite !Z.lor_0_r.
Qed.

Lemma memory_barrier_flags_split (scope : Z) :
  cache_domain_partition ->
  has_flag scope barrier_scope_mask ->
  flush_and_invalidate (memory_barrier_flags scope) = true.
Proof.
  intros (_ & _ & _ & [Hd_range Hd] & [Ht_range Ht] & _ & [Hv_range Hv] & _).
  unfold barrier_scope_mask. rewrite !has_flag_lor. intros Hscope.
  apply flush_and_invalidate_true. split.
  - apply (has_flag_mask _ PIPE_CONTROL_DATA_CACHE_FLUSH); [done|].
    apply has_flag_superset; [lia|]. unfold memory_barrier_flags.
    apply Z.bits_inj'. intros k Hk. clear. bitwise k.
  - unfold memory_barrier_flags.
    repeat destruct (decide _); try (exfalso; tauto);
      first
        [ apply (has_flag_mask _ PIPE_CONTROL_VF_CACHE_INVALIDATE); [done|];
          apply has_flag_superset; [lia|];
          apply Z.bits_inj'; intros k Hk; clear; bitwise k
        | apply (has_flag_mask _ PIPE_CONTROL_TEXTURE_CACHE_INVALIDATE);
            [done|];
          apply has_flag_superset; [lia|];
          apply Z.bits_inj'; intros k Hk; clear; bitwise k ].
Qed.

Lemma memory_barrier_bits_masked (scope : Z) :
  iris_memory_barrier_bits (Z.land scope barrier_scope_mask) =
  iris_memory_barrier_bits scope.
Proof.
  unfold iris_memory_barrier_bits, barrier_scope_mask.
  set (vb := PIPE_BARRIER_VERTEX_BUFFER). set (ib := PIPE_BARRIER_INDEX_BUFFER).
  set (ind := PIPE_BARRIER_INDIRECT_BUFFER).
  set (cb := PIPE_BARRIER_CONSTANT_BUFFER).
  set (tx := PIPE_BARRIER_TEXTURE). set (fb := PIPE_BARRIER_FRAMEBUFFER).
  set (mask := Z.lor (Z.lor (Z.lor (Z.lor (Z.lor vb ib) ind) cb) tx) fb).
  assert (Z.land (Z.land scope mask) (Z.lor (Z.lor vb ib) ind) =
          Z.land scope (Z.lor (Z.lor vb ib) ind)) as ->
    by (subst mask; apply Z.bits_inj'; intros n Hn; bitwise n).
  assert (Z.land (Z.land scope mask) cb = Z.land scope cb) as ->
    by (subst mask; apply Z.bits_inj'; intros n Hn; bitwise n).
  assert (Z.land (Z.land scope mask) (Z.lor tx fb) =
          Z.land scope (Z.lor tx fb)) as ->
    by (subst mask; apply Z.bits_inj'; intros n Hn; bitwise n).
  done.
Qed.

(** X5.  Only six bits of the scope count for [iris_memory_barrier]: vertex,
    index, indirect and constant buffer, texture and framebuffer.  Any other
    bit of the scope changes nothing in what the barrier does. *)
Theorem memory_barrier_ignores_other_scope_bits (d : driver) (scope : Z) :
  exec (iris_memory_barrier (Z.land scope barrier_scope_mask)) d =
  exec (iris_memory_barrier scope) d.
Proof.
  unfold iris_memory_barrier. by rewrite memory_barrier_bits_masked.
Qed.

(** X6.  The flag set of the memory barrier grows with the scope: when every
    bit of [scope1] is a bit of [scope2], every flag computed for [scope1] is
    computed for [scope2]; and the set always has data-cache flush and
    stall. *)
Theorem memory_barrier_bits_monotone (scope1 scope2 : Z) :
  Z.land scope1 scope2 = scope1 ->
  Z.land (iris_memory_barrier_bits scope1) (iris_memory_barrier_bits scope2) =
    iris_memory_barrier_bits scope1 /\
  Z.land (iris_memory_barrier_bits scope1)
         (Z.lor PIPE_CONTROL_DATA_CACHE_FLUSH PIPE_CONTROL_CS_STALL) =
    Z.lor PIPE_CONTROL_DATA_CACHE_FLUSH PIPE_CONTROL_CS_STALL.
Proof.
  intros Hsub. pose proof (has_flag_mono scope1 scope2) as Hmono.
  rewrite !iris_memory_barrier_bits_flags. unfold memory_barrier_flags.
  split.
  - repeat destruct (decide _);
      try (exfalso; intuition eauto; fail);
      apply Z.bits_inj'; intros k Hk; clear; bitwise k.
  - apply Z.bits_inj'. intros k Hk. clear. bitwise k.
Qed.

(** X7.  Under the data model of the flags, what a memory barrier emits on
    a batch with work is decided by the scope alone: with one of the six
    scope bits the request is split in its two commands, an end-of-pipe sync
    of the flush bits then the rest; with none of them a single command,
    data-cache flush with stall, is emitted. *)
Theorem memory_barrier_commands_on_batch
    (c : iris_context) (scope : Z) (i : nat) :
  cache_domain_partition ->
  (i < IRIS_BATCH_COUNT)%nat ->
  memory_work (batches c i) ->
  on_batch i (issued (iris_memory_barrier scope) c) =
  if decide (has_flag scope barrier_scope_mask)
  then split_commands c i (iris_memory_barrier_bits scope)
  else [ {| pc_batch := i;
            pc_flags := Z.lor PIPE_CONTROL_DATA_CACHE_FLUSH
                              PIPE_CONTROL_CS_STALL;
            pc_bo := NULL; pc_offset := 0; pc_imm := 0 |} ].
Proof.
  intros Hpartition Hi Hwork.
  rewrite issued_iris_memory_barrier, iris_memory_barrier_bits_flags.
  rewrite on_batch_concat_seq; [| |lia].
  2: { intros j. destruct (decide _); [|constructor].
       apply issued_flush_on_its_batch. }
  rewrite decide_True by done.
  rewrite issued_iris_emit_pipe_control_flush.
  destruct (decide (has_flag scope barrier_scope_mask)) as [Hscope|Hscope].
  - rewrite memory_barrier_flags_split by done.
    rewrite issued_iris_emit_end_of_pipe_sync.
    by rewrite land_uint32_lnot by by apply memory_barrier_flags_uint32.
  - rewrite memory_barrier_flags_no_scope by done.
    destruct Hpartition as
      (Hdisjoint & _ & _ & [_ Hdata] & _ & _ & _ & (_ & _ & Hstall) & _).
    assert (flush_and_invalidate
              (Z.lor PIPE_CONTROL_DATA_CACHE_FLUSH PIPE_CONTROL_CS_STALL)
            = false) as ->; [|done].
    unfold flush_and_invalidate. apply andb_false_iff. right.
    apply truthy_false, Z.bits_inj'. intros n Hn. bitwise n.
Qed.

(** *** Order, size and range of the streams *)

(** X8.  The commands of a memory barrier come in the order of the batches:
    those of a batch are never emitted after those of a batch of higher
    index. *)
Theorem memory_barrier_in_batch_order (c : iris_context) (scope : Z) :
  in_batch_order (issued (iris_memory_barrier scope) c).
Proof.
  rewrite issued_iris_memory_barrier.
  apply (concat_seq_in_order
           (fun i => if decide (memory_work (batches c i))
                     then issued (iris_emit_pipe_control_flush i
                                    (memory_barrier_flags scope)) c
                     else [])).
  intros j. destruct (decide _); [|constructor].
  apply issued_flush_on_its_batch.
Qed.

Lemma length_issued_flush c batch F :
  length (issued (iris_emit_pipe_control_flush batch F) c) =
  if flush_and_invalidate F then 2%nat else 1%nat.
Proof.
  rewrite issued_iris_emit_pipe_control_flush.
  by destruct (flush_and_invalidate F).
Qed.

(** X9.  The number of commands is bounded: one or two for a flush, at most
    eight for a texture barrier, and at most two for each of the
    [IRIS_BATCH_COUNT] batches for a memory barrier. *)
Theorem emitted_commands_are_bounded
    (c : iris_context) (batch : nat) (F flags scope : Z) :
  (1 <= length (issued (iris_emit_pipe_control_flush batch F) c) <= 2)%nat /\
  (length (issued (iris_texture_barrier flags) c) <= 8)%nat /\
  (length (issued (iris_memory_barrier scope) c) <= 2 * IRIS_BATCH_COUNT)%nat.
Proof.
  assert (forall b f,
    (length (issued (iris_emit_pipe_control_flush b f) c) <= 2)%nat) as Hflush.
  { intros b f. rewrite length_issued_flush.
    destruct (flush_and_invalidate f); lia. }
  split; [|split].
  - rewrite length_issued_flush. destruct (flush_and_invalidate F); lia.
  - rewrite issued_iris_texture_barrier, length_app.
    pose proof (Hflush IRIS_BATCH_RENDER
                  (Z.lor (Z.lor PIPE_CONTROL_DEPTH_CACHE_FLUSH
                                PIPE_CONTROL_RENDER_TARGET_FLUSH)
                         PIPE_CONTROL_CS_STALL)).
    pose proof (Hflush IRIS_BATCH_RENDER PIPE_CONTROL_TEXTURE_CACHE_INVALIDATE).
    pose proof (Hflush IRIS_BATCH_COMPUTE PIPE_CONTROL_CS_STALL).
    pose proof (Hflush IRIS_BATCH_COMPUTE PIPE_CONTROL_TEXTURE_CACHE_INVALIDATE).
    repeat destruct (decide _); rewrite ?length_app; simpl; lia.
  - rewrite issued_iris_memory_barrier.
    pose proof (length_concat_map_le
                  (fun i => if decide (memory_work (batches c i))
                            then issued (iris_emit_pipe_control_flush i
                                           (memory_barrier_flags scope)) c
                            else [])
                  (seq 0 IRIS_BATCH_COUNT) 2) as Hbound.
    rewrite length_seq in Hbound. apply Hbound. intros i.
    destruct (decide _); [apply Hflush|simpl; lia].
Qed.

(** X10.  A batch the barriers do not look at receives nothing: the texture
    barrier emits only against the render and the compute batch, the memory
    barrier only against the batches of index below [IRIS_BATCH_COUNT]. *)
Theorem barriers_touch_only_their_batches
    (c : iris_context) (flags scope : Z) (i : nat) :
  (i <> IRIS_BATCH_RENDER -> i <> IRIS_BATCH_COMPUTE ->
   on_batch i (issued (iris_texture_barrier flags) c) = []) /\
  ((IRIS_BATCH_COUNT <= i)%nat ->
   on_batch i (issued (iris_memory_barrier scope) c) = []).
Proof.
  split.
  - intros Hrender Hcompute.
    rewrite issued_iris_texture_barrier, on_batch_app.
    assert (forall j f1 f2,
              j <> i ->
              on_batch i (issued (iris_emit_pipe_control_flush j f1) c ++
                          issued (iris_emit_pipe_control_flush j f2) c) = [])
      as Hother.
    { intros j f1 f2 Hj. apply (on_batch_other i j); [|done].
      apply Forall_app. split; apply issued_flush_on_its_batch. }
    destruct (decide _), (decide _);
      rewrite ?Hother by congruence; done.
  - intros Hi. rewrite issued_iris_memory_barrier.
    apply on_batch_concat_nil. intros j Hj.
    apply elem_of_seq in Hj.
    destruct (decide _); [|done].
    apply (on_batch_other i j); [|lia].
    apply issued_flush_on_its_batch.
Qed.

Lemma flush_flags_uint32_aux (c : iris_context) (batch : nat) (F : Z) :
  is_uint32 F ->
  is_uint32 PIPE_CONTROL_CS_STALL ->
  is_uint32 PIPE_CONTROL_WRITE_IMMEDIATE ->
  Forall (fun p => is_uint32 (pc_flags p))
         (issued (iris_emit_pipe_control_flush batch F) c).
Proof.
  intros HF Hstall Hwrite.
  rewrite issued_iris_emit_pipe_control_flush.
  destruct (flush_and_invalidate F).
  - rewrite issued_iris_emit_end_of_pipe_sync.
    apply Forall_cons. split; [|apply Forall_cons; split; [|constructor]].
    + simpl. by repeat apply uint32_lor; try apply uint32_land_l.
    + simpl. by apply uint32_land_l.
  - apply Forall_cons. split; [done|constructor].
Qed.

(** X11.  The flags of the commands of a flush fit 32 bits when the request
    and the stall and write-immediate flags do: nothing is lost when they
    are passed as [uint32_t]. *)
Theorem flush_flags_fit_uint32 (c : iris_context) (batch : nat) (F : Z) :
  is_uint32 F ->
  is_uint32 PIPE_CONTROL_CS_STALL ->
  is_uint32 PIPE_CONTROL_WRITE_IMMEDIATE ->
  Forall (fun p => is_uint32 (pc_flags p))
         (issued (iris_emit_pipe_control_flush batch F) c).
Proof. apply flush_flags_uint32_aux. Qed.

(** X12.  Under the data model of the flags, the flags of every command of
    the two barriers fit 32 bits, whatever the scope. *)
Theorem barrier_flags_fit_uint32 (c : iris_context) (flags scope : Z) :
  cache_domain_partition ->
  Forall (fun p => is_uint32 (pc_flags p))
         (issued (iris_texture_barrier flags) c) /\
  Forall (fun p => is_uint32 (pc_flags p))
         (issued (iris_memory_barrier scope) c).
Proof.
  intros Hpartition.
  pose proof (memory_barrier_flags_uint32 scope Hpartition) as Hbits.
  destruct Hpartition as
    (_ & Hr & Hd & _ & Ht & _ & _ & Hstall & Hwrite & _).
  apply flag_of_uint32 in Hr, Hd, Ht.
  apply control_flag_uint32 in Hstall, Hwrite.
  split.
  - rewrite issued_iris_texture_barrier.
    apply Forall_app. split; destruct (decide _); try constructor;
      apply Forall_app; split; apply flush_flags_uint32_aux;
      try done; by repeat apply uint32_lor.
  - rewrite issued_iris_memory_barrier.
    apply Forall_concat_map. intros i _.
    destruct (decide _); [|constructor].
    by apply flush_flags_uint32_aux.
Qed.

(** X13.  Under the data model of the flags the texture barrier splits
    none of its requests: it emits, for the render batch, the flush request
    then the invalidate request, and the same for the compute batch with a
    stall in place of the flushes, all without write target. *)
Theorem texture_barrier_emits_requests_unsplit
    (c : iris_context) (s : list pipe_control) (flags : Z) :
  cache_domain_partition ->
  exec (iris_texture_barrier flags) {| ice := c; emitted := s |} =
  {| ice := c;
     emitted := s ++
       (if decide (render_work (batches c IRIS_BATCH_RENDER)) then
          [ {| pc_batch := IRIS_BATCH_RENDER;
               pc_flags := Z.lor (Z.lor PIPE_CONTROL_DEPTH_CACHE_FLUSH
                                        PIPE_CONTROL_RENDER_TARGET_FLUSH)
                                 PIPE_CONTROL_CS_STALL;
               pc_bo := NULL; pc_offset := 0; pc_imm := 0 |};
            {| pc_batch := IRIS_BATCH_RENDER;
               pc_flags := PIPE_CONTROL_TEXTURE_CACHE_INVALIDATE;
               pc_bo := NULL; pc_offset := 0; pc_imm := 0 |} ]
        else []) ++
       (if decide (contains_draw (batches c IRIS_BATCH_COMPUTE) = true) then
          [ {| pc_batch := IRIS_BATCH_COMPUTE;
               pc_flags := PIPE_CONTROL_CS_STALL;
               pc_bo := NULL; pc_offset := 0; pc_imm := 0 |};
            {| pc_batch := IRIS_BATCH_COMPUTE;
               pc_flags := PIPE_CONTROL_TEXTURE_CACHE_INVALIDATE;
               pc_bo := NULL; pc_offset := 0; pc_imm := 0 |} ]
        else []) |}.
Proof.
  intros Hpartition.
  rewrite texture_barrier_algorithm_aux.
  by rewrite texture_barrier_commands.
Qed.

(** X14.  A split flush is what a caller gets by doing the two steps by
    hand: for a 32-bit request with a flush bit and an invalidate bit,
    [iris_emit_pipe_control_flush] leaves the same stream as an end-of-pipe
    sync of the flush bits followed by a flush of the request without its
    flush bits and without the stall, and this second flush is not split
    again. *)
Theorem split_flush_is_sync_then_flush (d : driver) (batch : nat) (F : Z) :
  is_uint32 F ->
  racy F ->
  exec (iris_emit_pipe_control_flush batch F) d =
  exec (iris_emit_end_of_pipe_sync batch
          (Z.land F PIPE_CONTROL_CACHE_FLUSH_BITS) >>
        iris_emit_pipe_control_flush batch
          (Z.ldiff F (Z.lor PIPE_CONTROL_CACHE_FLUSH_BITS
                            PIPE_CONTROL_CS_STALL))) d /\
  flush_and_invalidate
    (Z.ldiff F (Z.lor PIPE_CONTROL_CACHE_FLUSH_BITS PIPE_CONTROL_CS_STALL))
  = false.
Proof.
  intros HF Hracy.
  assert (flush_and_invalidate
            (Z.ldiff F (Z.lor PIPE_CONTROL_CACHE_FLUSH_BITS
                              PIPE_CONTROL_CS_STALL)) = false) as Hrest.
  { unfold flush_and_invalidate. apply andb_false_iff. left.
    apply truthy_false, Z.bits_inj'. intros k Hk. clear. bitwise k. }
  split; [|done].
  rewrite !steady_exec.
  2: { apply steady_bind; intros;
         [apply steady_iris_emit_end_of_pipe_sync
         |apply steady_iris_emit_pipe_control_flush]. }
  2: apply steady_iris_emit_pipe_control_flush.
  rewrite issued_bind; try (intros; apply steady_iris_emit_pipe_control_flush);
    [|apply steady_iris_emit_end_of_pipe_sync].
  rewrite !issued_iris_emit_pipe_control_flush, Hrest.
  apply flush_and_invalidate_true in Hracy. rewrite Hracy.
  by rewrite land_uint32_lnot by done.
Qed.

End MoreProperties.

(** ** The model on concrete inputs

    The constants are those of [sample_defs]; batch 0 is the render batch,
    batch 1 the compute batch. *)

#[local] Existing Instance sample_defs.

Lemma sample_defs_partition : cache_domain_partition.
Proof. vm_compute. repeat split; congruence. Qed.

(** Render-target flush with texture-cache invalidate is split. *)
Lemma flush_splits_flush_and_invalidate_witness :
  0 <= 40960 < 2 ^ 32 /\
  has_flag 40960 PIPE_CONTROL_CACHE_FLUSH_BITS /\
  has_flag 40960 PIPE_CONTROL_CACHE_INVALIDATE_BITS /\
  exec (iris_emit_pipe_control_flush 0 40960)
       {| ice := sample_context true 0 0 false 0 0; emitted := [] |} =
  {| ice := sample_context true 0 0 false 0 0;
     emitted :=
       [ {| pc_batch := 0; pc_flags := 8720; pc_bo := Some 7%N;
            pc_offset := 0; pc_imm := 0 |};
         {| pc_batch := 0; pc_flags := 32768; pc_bo := NULL;
            pc_offset := 0; pc_imm := 0 |} ] |}.
Proof.
  assert (0 <= 40960 < 2 ^ 32) as Hrange by lia.
  assert (has_flag 40960 PIPE_CONTROL_CACHE_FLUSH_BITS) as Hflush
    by (vm_compute; lia).
  assert (has_flag 40960 PIPE_CONTROL_CACHE_INVALIDATE_BITS) as Hinv
    by (vm_compute; lia).
  split; [exact Hrange|]. split; [exact Hflush|]. split; [exact Hinv|].
  apply (flush_splits_flush_and_invalidate
           (sample_context true 0 0 false 0 0) [] 0%nat 40960
           Hrange Hflush Hinv).
Defined.

(** Depth-cache flush with a stall has no invalidate bit: it is not split. *)
Lemma flush_passes_unsplit_request_witness :
  ~ (has_flag 16777232 PIPE_CONTROL_CACHE_FLUSH_BITS /\
     has_flag 16777232 PIPE_CONTROL_CACHE_INVALIDATE_BITS) /\
  exec (iris_emit_pipe_control_flush 1 16777232)
       {| ice := sample_context true 0 0 false 0 0; emitted := [] |} =
  {| ice := sample_context true 0 0 false 0 0;
     emitted :=
       [ {| pc_batch := 1; pc_flags := 16777232; pc_bo := NULL;
            pc_offset := 0; pc_imm := 0 |} ] |}.
Proof.
  assert (~ (has_flag 16777232 PIPE_CONTROL_CACHE_FLUSH_BITS /\
             has_flag 16777232 PIPE_CONTROL_CACHE_INVALIDATE_BITS)) as Hnot
    by (vm_compute; intros [_ Hinv]; apply Hinv; reflexivity).
  split; [exact Hnot|].
  apply (flush_passes_unsplit_request
           (sample_context true 0 0 false 0 0) [] 1%nat 16777232 Hnot).
Defined.

(** An idle render batch next to a compute batch with render-cache entries:
    the texture barrier emits nothing, the memory barrier nothing on batch
    0.  An idle render batch next to a compute batch that contains a draw:
    the texture barrier emits on batch 1, nothing on batch 0.  A compute
    batch without draw next to a render batch that contains one: the texture
    barrier emits on batch 0, nothing on batch 1. *)
Lemma barriers_skip_idle_batches_witness :
  let c := sample_context false 0 0 false 3 0 in
  let c_render_idle := sample_context false 0 0 true 0 0 in
  let c_compute_idle := sample_context true 0 0 false 5 5 in
  (contains_draw (batches c IRIS_BATCH_RENDER) = false /\
   entries (render (cache (batches c IRIS_BATCH_RENDER))) = 0 /\
   entries (depth (cache (batches c IRIS_BATCH_RENDER))) = 0 /\
   contains_draw (batches c IRIS_BATCH_COMPUTE) = false /\
   exec (iris_texture_barrier 0) {| ice := c; emitted := [] |} =
   {| ice := c; emitted := [] |}) /\
  (contains_draw (batches c 0%nat) = false /\
   entries (render (cache (batches c 0%nat))) = 0 /\
   exists calls,
     exec (iris_memory_barrier 128) {| ice := c; emitted := [] |} =
     {| ice := c; emitted := [] ++ calls |} /\
     on_batch 0 calls = []) /\
  (IRIS_BATCH_RENDER <> IRIS_BATCH_COMPUTE /\
   contains_draw (batches c_render_idle IRIS_BATCH_RENDER) = false /\
   entries (render (cache (batches c_render_idle IRIS_BATCH_RENDER))) = 0 /\
   entries (depth (cache (batches c_render_idle IRIS_BATCH_RENDER))) = 0 /\
   issued (iris_texture_barrier 0) c_render_idle <> [] /\
   exists calls,
     exec (iris_texture_barrier 0)
          {| ice := c_render_idle; emitted := [] |} =
     {| ice := c_render_idle; emitted := [] ++ calls |} /\
     on_batch IRIS_BATCH_RENDER calls = []) /\
  (IRIS_BATCH_RENDER <> IRIS_BATCH_COMPUTE /\
   contains_draw (batches c_compute_idle IRIS_BATCH_COMPUTE) = false /\
   issued (iris_texture_barrier 0) c_compute_idle <> [] /\
   exists calls,
     exec (iris_texture_barrier 0)
          {| ice := c_compute_idle; emitted := [] |} =
     {| ice := c_compute_idle; emitted := [] ++ calls |} /\
     on_batch IRIS_BATCH_COMPUTE calls = []).
Proof.
  intros c c_render_idle c_compute_idle.
  destruct (barriers_skip_idle_batches c []) as (Htexture & Hmemory & _).
  destruct (barriers_skip_idle_batches c_render_idle [])
    as (_ & _ & _ & Hrender & _).
  destruct (barriers_skip_idle_batches c_compute_idle [])
    as (_ & _ & _ & _ & Hcompute).
  assert (IRIS_BATCH_RENDER <> IRIS_BATCH_COMPUTE) as Hnames
    by (simpl; lia).
  split; [|split; [|split]].
  - do 4 (split; [reflexivity|]).
    apply (Htexture 0); reflexivity.
  - do 2 (split; [reflexivity|]).
    apply (Hmemory 128 0%nat); reflexivity.
  - split; [exact Hnames|]. do 3 (split; [reflexivity|]).
    split; [vm_compute; discriminate|].
    apply (Hrender 0 Hnames); reflexivity.
  - split; [exact Hnames|]. split; [reflexivity|].
    split; [vm_compute; discriminate|].
    apply (Hcompute 0 Hnames); reflexivity.
Defined.

(** A memory barrier for textures on a render batch that contains a draw. *)
Lemma memory_barrier_texture_flushes_then_invalidates_witness :
  let c := sample_context true 0 0 false 0 0 in
  cache_domain_partition /\
  (0 < IRIS_BATCH_COUNT)%nat /\
  contains_draw (batches c 0%nat) = true /\
  has_flag 128 PIPE_BARRIER_TEXTURE /\
  exists (calls : list pipe_control) (first second : pipe_control),
    exec (iris_memory_barrier 128) {| ice := c; emitted := [] |} =
    {| ice := c; emitted := [] ++ calls |} /\
    on_batch 0 calls = [first; second] /\
    has_flag (pc_flags first) PIPE_CONTROL_RENDER_TARGET_FLUSH /\
    has_flag (pc_flags second) PIPE_CONTROL_TEXTURE_CACHE_INVALIDATE /\
    Forall (fun p =>
              ~ (has_flag (pc_flags p) PIPE_CONTROL_RENDER_TARGET_FLUSH /\
                 has_flag (pc_flags p) PIPE_CONTROL_TEXTURE_CACHE_INVALIDATE))
           calls.
Proof.
  intros c.
  assert (cache_domain_partition) as Hpartition
    by (vm_compute; repeat split; congruence).
  assert (0 < IRIS_BATCH_COUNT)%nat as Hcount by (simpl; lia).
  assert (contains_draw (batches c 0%nat) = true) as Hdraw by reflexivity.
  assert (has_flag 128 PIPE_BARRIER_TEXTURE) as Hscope by (vm_compute; lia).
  split; [exact Hpartition|]. split; [exact Hcount|].
  split; [exact Hdraw|]. split; [exact Hscope|].
  apply (memory_barrier_texture_flushes_then_invalidates
           c [] 128 0%nat Hpartition Hcount Hdraw Hscope).
Defined.

(** The streams of the two barriers when both batches contain a draw. *)
Example texture_barrier_both_batches :
  issued (iris_texture_barrier 0) (sample_context true 0 0 true 0 0) =
  [ {| pc_batch := 0; pc_flags := 16785424; pc_bo := NULL;
       pc_offset := 0; pc_imm := 0 |};
    {| pc_batch := 0; pc_flags := 32768; pc_bo := NULL;
       pc_offset := 0; pc_imm := 0 |};
    {| pc_batch := 1; pc_flags := 16; pc_bo := NULL;
       pc_offset := 0; pc_imm := 0 |};
    {| pc_batch := 1; pc_flags := 32768; pc_bo := NULL;
       pc_offset := 0; pc_imm := 0 |} ].
Proof. reflexivity. Qed.

Example memory_barrier_texture_scope :
  issued (iris_memory_barrier 128) (sample_context true 0 0 false 1 0) =
  [ {| pc_batch := 0; pc_flags := 533008; pc_bo := Some 7%N;
       pc_offset := 0; pc_imm := 0 |};
    {| pc_batch := 0; pc_flags := 32768; pc_bo := NULL;
       pc_offset := 0; pc_imm := 0 |};
    {| pc_batch := 1; pc_flags := 533008; pc_bo := Some 7%N;
       pc_offset := 0; pc_imm := 0 |};
    {| pc_batch := 1; pc_flags := 32768; pc_bo := NULL;
       pc_offset := 0; pc_imm := 0 |} ].
Proof. reflexivity. Qed.

(** Entries in the depth cache alone do not make the memory barrier emit. *)
Example memory_barrier_depth_entries_only :
  issued (iris_memory_barrier 128) (sample_context false 0 1 false 0 0) = [].
Proof. reflexivity. Qed.

(** A write-immediate request passed to the flush helper reaches the raw
    emitter without a buffer. *)
Example flush_write_immediate_without_target :
  issued (iris_emit_pipe_control_flush 0 PIPE_CONTROL_WRITE_IMMEDIATE)
         (sample_context true 0 0 false 0 0) =
  [ {| pc_batch := 0; pc_flags := 512; pc_bo := NULL;
       pc_offset := 0; pc_imm := 0 |} ].
Proof. reflexivity. Qed.

(** *** The further properties on concrete inputs *)

Lemma flush_never_emits_racy_command_witness :
  Z.land PIPE_CONTROL_CACHE_FLUSH_BITS PIPE_CONTROL_CACHE_INVALIDATE_BITS = 0 /\
  Z.land PIPE_CONTROL_CS_STALL PIPE_CONTROL_CACHE_INVALIDATE_BITS = 0 /\
  Z.land PIPE_CONTROL_WRITE_IMMEDIATE PIPE_CONTROL_CACHE_INVALIDATE_BITS = 0 /\
  Forall (fun p => ~ racy (pc_flags p))
         (issued (iris_emit_pipe_control_flush 0 40960)
                 (sample_context true 0 0 false 0 0)).
Proof.
  split; [reflexivity|]. split; [reflexivity|]. split; [reflexivity|].
  apply (flush_never_emits_racy_command
           (sample_context true 0 0 false 0 0) 0%nat 40960);
    reflexivity.
Defined.

Lemma barriers_never_emit_racy_command_witness :
  Z.land PIPE_CONTROL_CACHE_FLUSH_BITS PIPE_CONTROL_CACHE_INVALIDATE_BITS = 0 /\
  Z.land PIPE_CONTROL_CS_STALL PIPE_CONTROL_CACHE_INVALIDATE_BITS = 0 /\
  Z.land PIPE_CONTROL_WRITE_IMMEDIATE PIPE_CONTROL_CACHE_INVALIDATE_BITS = 0 /\
  Forall (fun p => ~ racy (pc_flags p))
         (issued (iris_texture_barrier 0) (sample_context true 0 0 true 0 0)) /\
  Forall (fun p => ~ racy (pc_flags p))
         (issued (iris_memory_barrier 128) (sample_context true 0 0 true 0 0)).
Proof.
  split; [reflexivity|]. split; [reflexivity|]. split; [reflexivity|].
  apply (barriers_never_emit_racy_command
           (sample_context true 0 0 true 0 0) 0 128);
    reflexivity.
Defined.

Lemma flush_keeps_every_requested_bit_witness :
  is_uint32 40960 /\
  all_flags (issued (iris_emit_pipe_control_flush 0 40960)
                    (sample_context true 0 0 false 0 0)) =
  if flush_and_invalidate 40960
  then Z.lor (Z.lor 40960 PIPE_CONTROL_CS_STALL) PIPE_CONTROL_WRITE_IMMEDIATE
  else 40960.
Proof.
  assert (is_uint32 40960) as Hrange by (unfold is_uint32; lia).
  split; [exact Hrange|].
  apply (flush_keeps_every_requested_bit
           (sample_context true 0 0 false 0 0) 0%nat 40960 Hrange).
Defined.

Lemma memory_barrier_bits_monotone_witness :
  Z.land 128 136 = 128 /\
  Z.land (iris_memory_barrier_bits 128) (iris_memory_barrier_bits 136) =
    iris_memory_barrier_bits 128 /\
  Z.land (iris_memory_barrier_bits 128)
         (Z.lor PIPE_CONTROL_DATA_CACHE_FLUSH PIPE_CONTROL_CS_STALL) =
    Z.lor PIPE_CONTROL_DATA_CACHE_FLUSH PIPE_CONTROL_CS_STALL.
Proof.
  split; [reflexivity|].
  apply (memory_barrier_bits_monotone 128 136). reflexivity.
Defined.

Lemma memory_barrier_commands_on_batch_witness :
  let c := sample_context true 0 0 false 0 0 in
  cache_domain_partition /\
  (0 < IRIS_BATCH_COUNT)%nat /\
  memory_work (batches c 0%nat) /\
  on_batch 0 (issued (iris_memory_barrier 8) c) =
  if decide (has_flag 8 barrier_scope_mask)
  then split_commands c 0 (iris_memory_barrier_bits 8)
  else [ {| pc_batch := 0;
            pc_flags := Z.lor PIPE_CONTROL_DATA_CACHE_FLUSH
                              PIPE_CONTROL_CS_STALL;
            pc_bo := NULL; pc_offset := 0; pc_imm := 0 |} ].
Proof.
  intros c.
  assert (cache_domain_partition) as Hpartition
    by (vm_compute; repeat split; congruence).
  assert (0 < IRIS_BATCH_COUNT)%nat as Hcount by (simpl; lia).
  assert (memory_work (batches c 0%nat)) as Hwork by (left; reflexivity).
  split; [exact Hpartition|]. split; [exact Hcount|]. split; [exact Hwork|].
  apply (memory_barrier_commands_on_batch c 8 0%nat Hpartition Hcount Hwork).
Defined.

Lemma barriers_touch_only_their_batches_witness :
  let c := sample_context true 0 0 true 0 0 in
  (5%nat <> IRIS_BATCH_RENDER /\ 5%nat <> IRIS_BATCH_COMPUTE /\
   on_batch 5 (issued (iris_texture_barrier 0) c) = []) /\
  ((IRIS_BATCH_COUNT <= 5)%nat /\
   on_batch 5 (issued (iris_memory_barrier 128) c) = []).
Proof.
  intros c.
  destruct (barriers_touch_only_their_batches c 0 128 5%nat)
    as [Htexture Hmemory].
  assert (5%nat <> IRIS_BATCH_RENDER) as Hrender by (simpl; lia).
  assert (5%nat <> IRIS_BATCH_COMPUTE) as Hcompute by (simpl; lia).
  assert (IRIS_BATCH_COUNT <= 5)%nat as Hcount by (simpl; lia).
  split.
  - split; [exact Hrender|]. split; [exact Hcompute|].
    exact (Htexture Hrender Hcompute).
  - split; [exact Hcount|]. exact (Hmemory Hcount).
Defined.

Lemma flush_flags_fit_uint32_witness :
  is_uint32 40960 /\
  is_uint32 PIPE_CONTROL_CS_STALL /\
  is_uint32 PIPE_CONTROL_WRITE_IMMEDIATE /\
  Forall (fun p => is_uint32 (pc_flags p))
         (issued (iris_emit_pipe_control_flush 0 40960)
                 (sample_context true 0 0 false 0 0)).
Proof.
  assert (is_uint32 40960) as Hrange by (unfold is_uint32; lia).
  assert (is_uint32 PIPE_CONTROL_CS_STALL) as Hstall
    by (vm_compute; split; [discriminate|reflexivity]).
  assert (is_uint32 PIPE_CONTROL_WRITE_IMMEDIATE) as Hwrite
    by (vm_compute; split; [discriminate|reflexivity]).
  split; [exact Hrange|]. split; [exact Hstall|]. split; [exact Hwrite|].
  apply (flush_flags_fit_uint32
           (sample_context true 0 0 false 0 0) 0%nat 40960
           Hrange Hstall Hwrite).
Defined.

Lemma barrier_flags_fit_uint32_witness :
  let c := sample_context true 0 0 true 0 0 in
  cache_domain_partition /\
  Forall (fun p => is_uint32 (pc_flags p)) (issued (iris_texture_barrier 0) c) /\
  Forall (fun p => is_uint32 (pc_flags p)) (issued (iris_memory_barrier 128) c).
Proof.
  intros c.
  assert (cache_domain_partition) as Hpartition
    by (vm_compute; repeat split; congruence).
  split; [exact Hpartition|].
  apply (barrier_flags_fit_uint32 c 0 128 Hpartition).
Defined.

Lemma texture_barrier_emits_requests_unsplit_witness :
  let c := sample_context true 0 0 true 0 0 in
  cache_domain_partition /\
  exec (iris_texture_barrier 0) {| ice := c; emitted := [] |} =
  {| ice := c;
     emitted :=
       [ {| pc_batch := 0; pc_flags := 16785424; pc_bo := NULL;
            pc_offset := 0; pc_imm := 0 |};
         {| pc_batch := 0; pc_flags := 32768; pc_bo := NULL;
            pc_offset := 0; pc_imm := 0 |};
         {| pc_batch := 1; pc_flags := 16; pc_bo := NULL;
            pc_offset := 0; pc_imm := 0 |};
         {| pc_batch := 1; pc_flags := 32768; pc_bo := NULL;
            pc_offset := 0; pc_imm := 0 |} ] |}.
Proof.
  intros c.
  assert (cache_domain_partition) as Hpartition
    by (vm_compute; repeat split; congruence).
  split; [exact Hpartition|].
  apply (texture_barrier_emits_requests_unsplit c [] 0 Hpartition).
Defined.

(** A scope with none of the six bits (here bit 1) gives one command, data
    cache flush with stall, on the batch with work. *)
Example memory_barrier_other_scope :
  issued (iris_memory_barrier 2) (sample_context true 0 0 false 0 0) =
  [ {| pc_batch := 0; pc_flags := 524304; pc_bo := NULL;
       pc_offset := 0; pc_imm := 0 |} ].
Proof. reflexivity. Qed.

Lemma split_flush_is_sync_then_flush_witness :
  let d := {| ice := sample_context true 0 0 false 0 0; emitted := [] |} in
  is_uint32 40960 /\
  racy 40960 /\
  exec (iris_emit_pipe_control_flush 0 40960) d =
  exec (iris_emit_end_of_pipe_sync 0
          (Z.land 40960 PIPE_CONTROL_CACHE_FLUSH_BITS) >>
        iris_emit_pipe_control_flush 0
          (Z.ldiff 40960 (Z.lor PIPE_CONTROL_CACHE_FLUSH_BITS
                                PIPE_CONTROL_CS_STALL))) d /\
  flush_and_invalidate
    (Z.ldiff 40960 (Z.lor PIPE_CONTROL_CACHE_FLUSH_BITS PIPE_CONTROL_CS_STALL))
  = false.
Proof.
  intros d.
  assert (is_uint32 40960) as Hrange by (unfold is_uint32; lia).
  assert (racy 40960) as Hracy by (split; vm_compute; lia).
  split; [exact Hrange|]. split; [exact Hracy|].
  apply (split_flush_is_sync_then_flush d 0%nat 40960 Hrange Hracy).
Defined.
